(** * LG TV firmware downgrade utility: a shallow embedding and its properties

    The development follows the Python sources module by module:

    - [FirmwareDatabase]  (firmware_finder.py, class FirmwareDatabase)
    - [Regex] and [FirmwareFinder]  (firmware_finder.py, class FirmwareFinder)
    - [Py], [FileSystem] and [USBPrepper]  (usb_prep.py, class USBPrepper)
    - [SSHHelper]  (ssh_helper.py, class SSHHelper)

    Python [str] values are Rocq strings, a character being a code point
    below 256.  Calls that leave the interpreter (sockets, subprocesses,
    the file system, the terminal) take their outcome from an explicit
    environment and record what they did in an explicit world, so every
    method is a total, executable function.

    Part I holds the definitions, Part II the lemmas and theorems. *)

From Stdlib Require Import Ascii ZArith.
From stdpp Require Import gmap strings list pretty.

Local Open Scope string_scope.

(* Let [simpl] unfold string concatenation on a constructor. *)
#[local] Arguments String.append !_ _ / : simpl nomatch.

(** * Part I: the embedding *)

(** ** Python string primitives used by the sources *)

Module PyStr.

(** [c in chars] for a one-character [c]. *)
Fixpoint mem_char (c : ascii) (chars : string) : bool :=
  match chars with
  | EmptyString => false
  | String d rest => if Ascii.eqb c d then true else mem_char c rest
  end.

(** [s.rstrip(chars)]: drop the longest suffix made of characters of
    [chars]. *)
Fixpoint rstrip (chars s : string) : string :=
  match s with
  | EmptyString => EmptyString
  | String c rest =>
      match rstrip chars rest with
      | EmptyString => if mem_char c chars then EmptyString else String c EmptyString
      | kept => String c kept
      end
  end.

(** [s.startswith(p)]. *)
Definition startswith (s p : string) : bool := String.prefix p s.

(** [s.endswith(p)]. *)
Fixpoint endswith (s p : string) : bool :=
  if String.eqb s p then true
  else match s with
       | EmptyString => false
       | String _ rest => endswith rest p
       end.

(** [x in xs] for a list of strings, left to right as [list.__contains__]. *)
Fixpoint contains (x : string) (xs : list string) : bool :=
  match xs with
  | [] => false
  | y :: rest => if String.eqb x y then true else contains x rest
  end.

(** [s.replace(old, new)] for a one-character [old]. *)
Fixpoint replace_char (old : ascii) (new s : string) : string :=
  match s with
  | EmptyString => EmptyString
  | String c rest =>
      if Ascii.eqb c old then new +:+ replace_char old new rest
      else String c (replace_char old new rest)
  end.

(** Lower-casing of one code point below 256, as [str.lower] and the
    [re] module do it: [A-Z] and the Latin-1 capitals (192 to 222 but
    the multiplication sign 215) move up by 32, the rest stays. *)
Definition lower_char (c : ascii) : ascii :=
  let n := nat_of_ascii c in
  if (((65 <=? n) && (n <=? 90)) || ((192 <=? n) && (n <=? 222) && negb (n =? 215)))%nat
  then ascii_of_nat (n + 32) else c.

(** [s.lower()]. *)
Fixpoint lower (s : string) : string :=
  match s with
  | EmptyString => EmptyString
  | String c rest => String (lower_char c) (lower rest)
  end.

(** [c in s] as a proposition. *)
Fixpoint has_char (c : ascii) (s : string) : Prop :=
  match s with
  | EmptyString => False
  | String d rest => c = d \/ has_char c rest
  end.

(** [sub in s] for strings: [sub] occurs somewhere in [s]. *)
Fixpoint contains_sub (sub s : string) : bool :=
  if startswith s sub then true
  else match s with
       | EmptyString => false
       | String _ rest => contains_sub sub rest
       end.

(** [s.split(sep)] for a one-character separator: the pieces between the
    separators, empty ones included. *)
Fixpoint split_char (sep : ascii) (s : string) : list string :=
  match s with
  | EmptyString => [EmptyString]
  | String c rest =>
      if Ascii.eqb c sep then EmptyString :: split_char sep rest
      else match split_char sep rest with
           | piece :: pieces => String c piece :: pieces
           | [] => [String c EmptyString]
           end
  end.

(** [sep.join(pieces)]. *)
Fixpoint join_str (sep : string) (pieces : list string) : string :=
  match pieces with
  | [] => EmptyString
  | [piece] => piece
  | piece :: rest => piece +:+ sep +:+ join_str sep rest
  end.

End PyStr.

(** ** firmware_finder.py, class FirmwareDatabase *)

Module FirmwareDatabase.
Import PyStr.

(** The class attribute [ROOTABLE_FIRMWARE], a dict literal: keys in
    insertion order, each with its list of versions. *)
Definition ROOTABLE_FIRMWARE : list (string * list string) :=
  [ ("webOS 4.x", ["4.x.x"; "03.21.30"; "03.20.14"; "03.21.40"]);
    ("webOS 5.x", ["05.00.00"; "05.10.00"; "05.20.00"]);
    ("webOS 6.x", ["06.00.00"; "06.10.00"]) ].

(** The class attribute [PATCHED_FIRMWARE]. *)
Definition PATCHED_FIRMWARE : list string :=
  [ "03.30.10"; "03.30.14"; "03.40.xx" ].

(** [dict.values()]. *)
Definition values {K V} (d : list (K * V)) : list V := map snd d.

(** The loop of [is_rootable] over [ROOTABLE_FIRMWARE.values()]. *)
Fixpoint is_rootable_loop (version : string) (vals : list (list string)) : bool :=
  match vals with
  | [] => false
  | versions :: rest =>
      if contains version versions then true else is_rootable_loop version rest
  end.

Definition is_rootable (version : string) : bool :=
  is_rootable_loop version (values ROOTABLE_FIRMWARE).

(** The loop of [is_patched] over [PATCHED_FIRMWARE]. *)
Fixpoint is_patched_loop (version : string) (entries : list string) : bool :=
  match entries with
  | [] => false
  | patched :: rest =>
      if startswith version (rstrip "x" patched) then true
      else is_patched_loop version rest
  end.

Definition is_patched (version : string) : bool :=
  is_patched_loop version PATCHED_FIRMWARE.

(** [recommend_firmware]: the return type is [Optional[str]]. *)
Definition recommend_firmware (current_version : string) : option string :=
  if is_rootable current_version then Some current_version
  else Some "03.21.30".

(** The three-way classification made by the caller in gui.py
    ([check_firmware]): rootable is tested first, then patched. *)
Inductive classification := Rootable | Patched | Unknown.

Definition classify (version : string) : classification :=
  if is_rootable version then Rootable
  else if is_patched version then Patched
  else Unknown.

(** Membership in the rootable table: the version occurs in the list of
    some key. *)
Definition in_rootable_table (version : string) : Prop :=
  exists key versions, In (key, versions) ROOTABLE_FIRMWARE /\ In version versions.

(** An entry of the patched table is a wildcard when it ends in [x]. *)
Definition is_wildcard (entry : string) : bool :=
  negb (String.eqb (rstrip "x" entry) entry).

(** Membership in the patched table as the specification words it:
    a wildcard entry stands for every version that begins with its
    prefix, any other entry stands for itself. *)
Definition in_patched_table_spec (version : string) : Prop :=
  exists entry, In entry PATCHED_FIRMWARE /\
    if is_wildcard entry then startswith version (rstrip "x" entry) = true
    else version = entry.

(** Membership in the patched table as the code reads it: every entry,
    stripped of its trailing [x]s, is a prefix. *)
Definition matches_patched_prefix (version : string) : Prop :=
  exists entry, In entry PATCHED_FIRMWARE /\
    startswith version (rstrip "x" entry) = true.

End FirmwareDatabase.

(** ** The fragment of Python's [re] used by firmware_finder.py *)

Module Regex.
Import PyStr.

(** Compiled patterns.  [AnyChar] is [.] without DOTALL, [Lit] a literal
    character under IGNORECASE. *)
Inductive regex :=
  | Void
  | Eps
  | AnyChar
  | Lit (c : ascii)
  | Cat (r1 r2 : regex)
  | Star (r : regex).

Definition newline : ascii := ascii_of_nat 10.

(** [.] matches every character but the newline. *)
Definition any_ok (c : ascii) : bool := negb (Ascii.eqb c newline).

(** Under IGNORECASE the literal [p] matches [c] when both lower-case to
    the same character. *)
Definition lit_ok (p c : ascii) : bool := Ascii.eqb (lower_char c) (lower_char p).

(** The language of a pattern. *)
Inductive matches : regex -> string -> Prop :=
  | MEps : matches Eps EmptyString
  | MAny c : any_ok c = true -> matches AnyChar (String c EmptyString)
  | MLit p c : lit_ok p c = true -> matches (Lit p) (String c EmptyString)
  | MCat r1 r2 s1 s2 :
      matches r1 s1 -> matches r2 s2 -> matches (Cat r1 r2) (s1 +:+ s2)
  | MStarNil r : matches (Star r) EmptyString
  | MStarApp r s1 s2 :
      matches r s1 -> matches (Star r) s2 -> matches (Star r) (s1 +:+ s2).

(** Some prefix of [s] is in the language of [r]. *)
Definition matches_prefix (r : regex) (s : string) : Prop :=
  exists pre post, s = pre +:+ post /\ matches r pre.

Fixpoint nullable (r : regex) : bool :=
  match r with
  | Void | AnyChar | Lit _ => false
  | Eps | Star _ => true
  | Cat r1 r2 => nullable r1 && nullable r2
  end.

(** What is left of a pattern once it has read [c].  Alternation is not
    part of the pattern syntax covered here, so the alternatives are kept
    in a list. *)
Fixpoint deriv (c : ascii) (r : regex) : list regex :=
  match r with
  | Void | Eps => []
  | AnyChar => if any_ok c then [Eps] else []
  | Lit p => if lit_ok p c then [Eps] else []
  | Cat r1 r2 =>
      map (fun d => Cat d r2) (deriv c r1) ++ (if nullable r1 then deriv c r2 else [])
  | Star r1 => map (fun d => Cat d (Star r1)) (deriv c r1)
  end.

(** [Pattern.match(s)] as a truth value: the match is anchored at the
    start of [s] only, so it succeeds when one of the alternatives
    reached after some prefix of [s] accepts the empty string. *)
Fixpoint match_from (rs : list regex) (s : string) : bool :=
  if existsb nullable rs then true
  else match s with
       | EmptyString => false
       | String c rest => match_from (flat_map (deriv c) rs) rest
       end.

Definition re_match (r : regex) (s : string) : bool := match_from [r] s.

(** Characters that start a construct of the pattern syntax
    ([SPECIAL_CHARS] of the [re] parser). *)
Definition is_special (c : ascii) : bool := mem_char c ".\[{()*+?^$|".

Definition is_ascii_alnum (c : ascii) : bool :=
  let n := nat_of_ascii c in
  (((48 <=? n) && (n <=? 57)) || ((65 <=? n) && (n <=? 90)) || ((97 <=? n) && (n <=? 122)))%nat.

(** [re.compile(p, re.IGNORECASE)] on the patterns made of literal
    characters, [.], a backslash followed by a character that is no ASCII
    letter or digit, and [*] after one of these.  [None] stands for every
    other pattern: those the [re] module rejects and those that use a
    construct not covered here. *)
Fixpoint re_compile (p : string) : option regex :=
  match p with
  | EmptyString => Some Eps
  | String c rest =>
      if Ascii.eqb c "\" then
        match rest with
        | EmptyString => None
        | String e rest' =>
            if is_ascii_alnum e then None
            else match rest' with
                 | String q rest'' =>
                     if Ascii.eqb q "*"
                     then Cat (Star (Lit e)) <$> re_compile rest''
                     else Cat (Lit e) <$> re_compile rest'
                 | EmptyString => Some (Cat (Lit e) Eps)
                 end
        end
      else
        let atom := if Ascii.eqb c "." then Some AnyChar
                    else if is_special c then None else Some (Lit c) in
        match atom with
        | None => None
        | Some a =>
            match rest with
            | String q rest' =>
                if Ascii.eqb q "*"
                then Cat (Star a) <$> re_compile rest'
                else Cat a <$> re_compile rest
            | EmptyString => Some (Cat a Eps)
            end
        end
  end.

(** The pattern of a word matched literally, case-insensitively. *)
Fixpoint literal (w : string) : regex :=
  match w with
  | EmptyString => Eps
  | String c rest => Cat (Lit c) (literal rest)
  end.

(** Equality of two strings up to case. *)
Definition ci_eq (s t : string) : Prop := lower s = lower t.

End Regex.

(** ** firmware_finder.py, class FirmwareFinder *)

Module FirmwareFinder.
Import PyStr Regex.

(** The attributes set by [__init__]. *)
Record finder := {
  tv_model : string;
  target_version : string;
  firmware_dir : string;
}.

(** What the cache directory holds when it is read: the names of its
    entries in the order the operating system lists them, and whether
    the platform compares names with case ([False] on Windows). *)
Record cache := {
  listing : list string;
  case_sensitive : bool;
}.

(** [str(firmware_dir / name)] with the POSIX separator. *)
Definition joinpath (dir name : string) : string := dir +:+ "/" +:+ name.

(** Whether [name] fits the glob pattern [*.epk]. *)
Definition fnmatch_epk (cs : bool) (name : string) : bool :=
  endswith (if cs then name else lower name) ".epk".

(** [self.firmware_dir.glob("*.epk")]. *)
Definition glob_epk (c : cache) : list string :=
  filter (fun name => fnmatch_epk (case_sensitive c) name = true) (listing c).

(** The pattern text built in [_check_cache]: the raw f-string
    [.*{version.replace(".", r"\.")}\.epk]. *)
Definition pattern_source (self : finder) : string :=
  ".*" +:+ replace_char "." "\." (target_version self) +:+ "\.epk".

(** The loop of [_check_cache] over the globbed files. *)
Fixpoint _check_cache_loop (pattern : regex) (dir : string) (files : list string)
  : option string :=
  match files with
  | [] => None
  | name :: rest =>
      if re_match pattern name then Some (joinpath dir name)
      else _check_cache_loop pattern dir rest
  end.

(** [_check_cache].  The outer [None] is a version whose pattern
    [re_compile] does not cover; [Some r] is the method returning [r]. *)
Definition _check_cache (self : finder) (c : cache) : option (option string) :=
  pattern ← re_compile (pattern_source self);
  Some (_check_cache_loop pattern (firmware_dir self) (glob_epk c)).

(** [find_and_download]: the value returned and whether the download
    guide was printed.  A path is never the empty string, so [if cached]
    is the test for [None].  The text of the guide, and the model name
    computed for it, are not represented. *)
Definition find_and_download (self : finder) (c : cache)
  : option (option string * bool) :=
  cached ← _check_cache self c;
  match cached with
  | Some path => Some (Some path, false)
  | None => Some (None, true)
  end.

(** The matching criterion in the specification's words: the name
    contains the version somewhere, up to case. *)
Definition contains_version_spec (version name : string) : Prop :=
  exists pre mid post,
    name = pre +:+ mid +:+ post /\ ci_eq mid version.

(** The matching criterion of the code: after any characters but a
    newline comes the version followed at once by [.epk], up to case. *)
Definition version_then_epk (version name : string) : Prop :=
  exists pre mid post,
    name = pre +:+ mid +:+ post /\
    ~ has_char newline pre /\
    ci_eq mid (version +:+ ".epk").

(** [name] is the first of [files] that satisfies [P]. *)
Definition first_match (P : string -> Prop) (files : list string) (name : string) : Prop :=
  exists before after,
    files = (before ++ name :: after)%list /\ P name /\ Forall (fun n => ~ P n) before.

(** Versions whose pattern text is literal: no character of the version
    is a backslash or starts a pattern construct, the dot apart (it is
    escaped by [replace]). *)
Fixpoint plain_version (v : string) : bool :=
  match v with
  | EmptyString => true
  | String c rest =>
      (Ascii.eqb c "." || negb (Ascii.eqb c "\" || is_special c)) && plain_version rest
  end.

End FirmwareFinder.

(** ** The interpreter's view of the outside world *)

Module Py.

(** The exception classes the sources can meet.  All derive from
    [Exception]; [is_OSError] tells those that derive from [OSError]. *)
Inductive exn :=
  | FileExistsError
  | FileNotFoundError
  | NotADirectoryError
  | IsADirectoryError
  | PermissionError
  | OSError
  | SameFileError
  | Gaierror
  | TimeoutExpired
  | CalledProcessError
  | EOFError
  | OverflowError
  | UnicodeDecodeError
  | ValueError.

Definition is_OSError (e : exn) : bool :=
  match e with
  | FileExistsError | FileNotFoundError | NotADirectoryError | IsADirectoryError
  | PermissionError | OSError | SameFileError | Gaierror => true
  | TimeoutExpired | CalledProcessError | EOFError | OverflowError
  | UnicodeDecodeError | ValueError => false
  end.

Inductive outcome (A : Type) :=
  | Return (a : A)
  | Raise (e : exn).
Arguments Return {A} a.
Arguments Raise {A} e.

Inductive level := DEBUG | INFO | WARNING | ERROR.

(** What a call leaves behind outside the file tree.  A log entry keeps
    the fixed text of its message; where the log handlers put it (the
    console, a log file of the command-line script) is not represented. *)
Inductive event :=
  | Log (l : level) (msg : string)
  | Print (text : string)
  | Input (prompt : string)
  | Run (argv : list string) (check capture : bool) (timeout : option N)
  | SocketNew
  | SetTimeout (seconds : N)
  | ConnectEx (host : string) (port : Z)
  | SocketClose.

(** A path after resolution: the names from the root down.  The empty
    list is the root.  Symbolic links, relative names and access rights
    on the directories passed through are not represented. *)
Definition path := list string.

Inductive node :=
  | Dir
  | File (content : string).

(** The world a call runs in and changes: the file tree, the trace of
    events, and the time spent waiting, in milliseconds. *)
Record world := {
  files : gmap path node;
  trace : list event;
  clock : N;
}.

(** A write that goes wrong: refused when the file is opened, or cut
    short after [n] characters. *)
Inductive write_fault := OpenDenied | ShortWrite (n : nat).

(** How a spawned program ends.  It cannot be started: no such file
    ([Missing]), a search path that runs through something that is no
    directory ([BrokenPath]), a file that may not be executed
    ([NotExecutable]).  Or it exits after [duration] milliseconds with a
    return code, having written either text ([Exits], the text as it
    decodes) or bytes that do not decode as text ([Garbled]). *)
Inductive process :=
  | Missing
  | BrokenPath
  | NotExecutable
  | Exits (duration : N) (returncode : Z) (stdout stderr : string)
  | Garbled (duration : N) (returncode : Z).

(** What answers a TCP connection attempt. *)
Inductive peer :=
  | Answers (after : N) (errno : Z)
  | Silent
  | Unresolvable
  | BadAddress.

(** What the world decides and the program cannot: the platform, the
    line typed on the terminal ([None] at end of input), how the n-th
    spawned program ends, which writes fail, how sockets behave. *)
Record env := {
  system : string;
  stdin : option string;
  spawn : nat -> list string -> process;
  mkdir_denied : path -> bool;
  write_fails : path -> option write_fault;
  socket_denied : bool;
  connect : string -> Z -> peer;
  syn_timeout : N;
}.

(** Computations: read the environment, change the world, return or
    raise. *)
Definition M (A : Type) : Type := env -> world -> world * outcome A.

Definition ret {A} (a : A) : M A := fun _ w => (w, Return a).

Definition raise {A} (e : exn) : M A := fun _ w => (w, Raise e).

Definition bind {A B} (m : M A) (k : A -> M B) : M B :=
  fun e w =>
    match m e w with
    | (w', Return a) => k a e w'
    | (w', Raise x) => (w', Raise x)
    end.

(** [try: body  except ...: handler].  The handler answers [None] for an
    exception no clause catches. *)
Definition try_except {A} (body : M A) (handler : exn -> option (M A)) : M A :=
  fun e w =>
    match body e w with
    | (w', Return a) => (w', Return a)
    | (w', Raise x) =>
        match handler x with
        | Some h => h e w'
        | None => (w', Raise x)
        end
    end.

Definition emit (ev : event) : M unit :=
  fun _ w => ({| files := files w; trace := trace w ++ [ev]; clock := clock w |}, Return tt).

Definition log (l : level) (msg : string) : M unit := emit (Log l msg).

Definition print (text : string) : M unit := emit (Print text).

(** [input(prompt)]. *)
Definition input (prompt : string) : M string :=
  fun e w =>
    match emit (Input prompt) e w with
    | (w', _) =>
        match stdin e with
        | Some line => (w', Return line)
        | None => (w', Raise EOFError)
        end
    end.

(** [platform.system()]. *)
Definition platform_system : M string := fun e w => (w, Return (system e)).

Definition seconds (n : N) : N := (n * 1000)%N.

End Py.

Declare Scope py_scope.
Delimit Scope py_scope with py.
Notation "x <- c1 ;; c2" := (Py.bind c1 (fun x => c2))
  (at level 100, c1 at next level, right associativity) : py_scope.
Notation "c1 ;;; c2" := (Py.bind c1 (fun _ => c2))
  (at level 100, right associativity) : py_scope.

(** ** The file-system calls of usb_prep.py *)

Module FileSystem.
Import Py.
Local Open Scope py_scope.

(** [os.path.dirname]: the path without its last name. *)
Definition parent (p : path) : path := removelast p.

(** [Path(p).name] and [os.path.basename]: the last name, empty for the
    root. *)
Definition name (p : path) : string := List.last p EmptyString.

(** [os.path.join(p, n)] for a relative name [n]; joining the empty name
    only appends a separator, which resolves to [p]. *)
Definition join (p : path) (n : string) : path :=
  if String.eqb n EmptyString then p else (p ++ [n])%list.

Definition with_files (w : world) (fs : gmap path node) : world :=
  {| files := fs; trace := trace w; clock := clock w |}.

(** [os.path.exists] and [Path.exists]. *)
Definition exists_ (p : path) : M bool :=
  fun _ w => (w, Return (match files w !! p with Some _ => true | None => false end)).

(** [os.path.isdir]. *)
Definition isdir (p : path) : M bool :=
  fun _ w => (w, Return (match files w !! p with Some Dir => true | _ => false end)).

(** [os.stat]. *)
Definition stat (p : path) : M node :=
  fun _ w =>
    match files w !! p with
    | Some n => (w, Return n)
    | None => (w, Raise FileNotFoundError)
    end.

(** [os.mkdir]. *)
Definition mkdir (p : path) : M unit :=
  fun e w =>
    match files w !! p with
    | Some _ => (w, Raise FileExistsError)
    | None =>
        match files w !! parent p with
        | None => (w, Raise FileNotFoundError)
        | Some (File _) => (w, Raise NotADirectoryError)
        | Some Dir =>
            if mkdir_denied e p then (w, Raise PermissionError)
            else (with_files w (<[p := Dir]> (files w)), Return tt)
        end
    end.

(** [os.makedirs(name, exist_ok=...)], by recursion on the names of the
    path from the last one up, as the library recurses on
    [os.path.split]. *)
Fixpoint makedirs_rev (rname : list string) (exist_ok : bool) : M unit :=
  (match rname with
   | [] => ret tt
   | _ :: rhead =>
       head_exists <- exists_ (rev rhead) ;;
       if head_exists then ret tt
       else try_except (makedirs_rev rhead exist_ok)
              (fun x => match x with FileExistsError => Some (ret tt) | _ => None end)
   end) ;;;
  try_except (mkdir (rev rname))
    (fun x =>
       if is_OSError x then
         Some (d <- isdir (rev rname) ;;
               if negb exist_ok || negb d then raise x else ret tt)
       else None).

Definition makedirs (p : path) (exist_ok : bool) : M unit :=
  makedirs_rev (rev p) exist_ok.

(** [open(dst, 'wb')] followed by the writes of [shutil.copyfileobj]. *)
Definition write_file (dst : path) (content : string) : M unit :=
  fun e w =>
    match files w !! dst with
    | Some Dir => (w, Raise IsADirectoryError)
    | _ =>
        match files w !! parent dst with
        | None => (w, Raise FileNotFoundError)
        | Some (File _) => (w, Raise NotADirectoryError)
        | Some Dir =>
            match write_fails e dst with
            | Some OpenDenied => (w, Raise PermissionError)
            | Some (ShortWrite n) =>
                (with_files w (<[dst := File (String.substring 0 n content)]> (files w)),
                 Raise OSError)
            | None => (with_files w (<[dst := File content]> (files w)), Return tt)
            end
        end
    end.

(** [shutil.copyfile]: refuse to copy a file onto itself, read the
    source, write the destination. *)
Definition copyfile (src dst : path) : M unit :=
  src_node <- (fun _ w => (w, Return (files w !! src))) ;;
  dst_node <- (fun _ w => (w, Return (files w !! dst))) ;;
  match src_node, dst_node with
  | Some _, Some _ =>
      if bool_decide (src = dst) then raise SameFileError else ret tt
  | _, _ => ret tt
  end ;;;
  match src_node with
  | None => raise FileNotFoundError
  | Some Dir => raise IsADirectoryError
  | Some (File content) => write_file dst content
  end.

(** [shutil.copy2]: a destination that is a directory receives the file
    under the source's name.  The copy of the time stamps and permission
    bits is not represented. *)
Definition copy2 (src dst : path) : M path :=
  d <- isdir dst ;;
  let dst := if d then join dst (name src) else dst in
  copyfile src dst ;;;
  ret dst.

End FileSystem.

(** ** The [subprocess] and [socket] calls of the sources *)

Module Subprocess.
Import Py.
Local Open Scope py_scope.

(** [subprocess.CompletedProcess]. *)
Record completed := {
  returncode : Z;
  stdout : string;
  stderr : string;
}.

(** How many programs the trace shows as spawned. *)
Fixpoint spawned (t : list event) : nat :=
  match t with
  | [] => 0
  | Run _ _ _ _ :: rest => S (spawned rest)
  | _ :: rest => spawned rest
  end.

(** The newline translation of text mode: [\r\n] and [\r] become
    [\n]. *)
Fixpoint universal_newlines (s : string) : string :=
  match s with
  | EmptyString => EmptyString
  | String c rest =>
      if Ascii.eqb c (ascii_of_nat 13) then
        match rest with
        | String d rest' =>
            if Ascii.eqb d (ascii_of_nat 10)
            then String (ascii_of_nat 10) (universal_newlines rest')
            else String (ascii_of_nat 10) (universal_newlines rest)
        | EmptyString => String (ascii_of_nat 10) EmptyString
        end
      else String c (universal_newlines rest)
  end.

(** An argument list can be handed to the system: no argument holds the
    character of code 0. *)
Definition startable (argv : list string) : bool :=
  forallb (fun a => negb (PyStr.mem_char (ascii_of_nat 0) a)) argv.

(** [subprocess.run(argv, check=..., timeout=...)], the timeout in
    seconds; [capture] stands for [capture_output=True, text=True], as
    every capturing call of the sources has it.  The call is recorded.
    An argument with the character of code 0 raises [ValueError]
    (embedded null byte) before anything is started.  Otherwise the
    environment tells how the program ends, and the wait is added to the
    clock.  A program that cannot be started raises the error of the
    system.  A program that runs past the timeout is killed
    and [TimeoutExpired] raised.  Otherwise captured output is decoded,
    which raises [UnicodeDecodeError] on bytes that are no text whatever
    the return code, and has its newlines translated; only then does
    [check] look at the return code. *)
Definition run (argv : list string) (check capture : bool) (timeout : option N)
  : M completed :=
  fun e w =>
    let w1 := {| files := files w;
                 trace := trace w ++ [Run argv check capture timeout];
                 clock := clock w |} in
    let waited d := {| files := files w1; trace := trace w1; clock := (clock w1 + d)%N |} in
    let late duration :=
      match timeout with
      | Some t => (seconds t <? duration)%N
      | None => false
      end in
    let limit := match timeout with Some t => seconds t | None => 0%N end in
    if negb (startable argv) then (w1, Raise ValueError) else
    match spawn e (spawned (trace w)) argv with
    | Missing => (w1, Raise FileNotFoundError)
    | BrokenPath => (w1, Raise NotADirectoryError)
    | NotExecutable => (w1, Raise PermissionError)
    | Exits duration rc out err =>
        if late duration then (waited limit, Raise TimeoutExpired)
        else if check && negb (rc =? 0)%Z then (waited duration, Raise CalledProcessError)
        else (waited duration,
              Return {| returncode := rc;
                        stdout := if capture then universal_newlines out else EmptyString;
                        stderr := if capture then universal_newlines err else EmptyString |})
    | Garbled duration rc =>
        if late duration then (waited limit, Raise TimeoutExpired)
        else if capture then (waited duration, Raise UnicodeDecodeError)
        else if check && negb (rc =? 0)%Z then (waited duration, Raise CalledProcessError)
        else (waited duration,
              Return {| returncode := rc; stdout := EmptyString; stderr := EmptyString |})
    end.

End Subprocess.

Module Socket.
Import Py.
Local Open Scope py_scope.

(** A socket object: its timeout in seconds, [None] for a blocking
    socket. *)
Record socket := { timeout : option N }.

(** The error codes as Linux numbers them; all that matters below is
    that they are not zero. *)
Definition EWOULDBLOCK : Z := 11.
Definition ETIMEDOUT : Z := 110.

(** [socket.socket(AF_INET, SOCK_STREAM)]. *)
Definition socket_new : M socket :=
  emit SocketNew ;;;
  (fun e w => if socket_denied e then (w, Raise OSError)
              else (w, Return {| timeout := None |})).

(** [sock.settimeout(t)]. *)
Definition settimeout (s : socket) (t : N) : M socket :=
  emit (SetTimeout t) ;;; ret {| timeout := Some t |}.

(** [sock.connect_ex((host, port))].  The error code of the attempt is
    returned, not raised: [0] when the peer accepts, the peer's refusal
    otherwise; an attempt not answered within the socket's timeout ends
    at the timeout with [EWOULDBLOCK], and a blocking socket gives up
    with [ETIMEDOUT] when the system does.  Only a name that does not
    resolve or an address that is not well formed raises.  The time
    taken to resolve a name is not counted. *)
Definition connect_ex (s : socket) (host : string) (port : Z) : M Z :=
  emit (ConnectEx host port) ;;;
  (fun e w =>
     let waited d := {| files := files w; trace := trace w; clock := (clock w + d)%N |} in
     match connect e host port with
     | Unresolvable => (w, Raise Gaierror)
     | BadAddress => (w, Raise OverflowError)
     | Answers after errno =>
         match timeout s with
         | Some t =>
             if (after <=? seconds t)%N then (waited after, Return errno)
             else (waited (seconds t), Return EWOULDBLOCK)
         | None =>
             if (after <=? syn_timeout e)%N then (waited after, Return errno)
             else (waited (syn_timeout e), Return ETIMEDOUT)
         end
     | Silent =>
         match timeout s with
         | Some t => (waited (seconds t), Return EWOULDBLOCK)
         | None => (waited (syn_timeout e), Return ETIMEDOUT)
         end
     end).

(** [sock.close()]. *)
Definition close (s : socket) : M unit := emit SocketClose.

End Socket.

(** ** usb_prep.py, class USBPrepper *)

Module USBPrepper.
Import Py FileSystem Subprocess.
Local Open Scope py_scope.

(** The attributes set by [__init__]. *)
Record prepper := {
  usb_path : path;
  system : string;
}.

(** [_print_summary]: reads the size of the staged file, then prints. *)
Definition _print_summary (self : prepper) (firmware_path : path) : M unit :=
  stat firmware_path ;;;
  print "USB PREPARATION COMPLETE".

(** [prepare_firmware].  A [return False] inside a [try] block or its
    handler is the [false] of the block's flag. *)
Definition prepare_firmware (self : prepper) (firmware_path : path) : M bool :=
  fw_exists <- exists_ firmware_path ;;
  if negb fw_exists then
    log ERROR "Firmware not found" ;;; ret false
  else
  usb_exists <- exists_ (usb_path self) ;;
  if negb usb_exists then
    log ERROR "USB path not found" ;;; ret false
  else
  let lg_dtv_path := join (usb_path self) "LG_DTV" in
  made <- try_except
            (makedirs lg_dtv_path true ;;;
             log INFO "Created LG_DTV folder" ;;; ret true)
            (fun _ => Some (log ERROR "Failed to create LG_DTV folder" ;;; ret false)) ;;
  if negb made then ret false
  else
  let firmware_name := name firmware_path in
  let dest_path := join lg_dtv_path firmware_name in
  copied <- try_except
              (copy2 firmware_path dest_path ;;;
               stat firmware_path ;;;
               log INFO "Copied firmware" ;;; ret true)
              (fun _ => Some (log ERROR "Failed to copy firmware" ;;; ret false)) ;;
  if negb copied then ret false
  else
  dest_exists <- exists_ dest_path ;;
  if negb dest_exists then
    log ERROR "Verification failed - file not copied" ;;; ret false
  else
  log INFO "USB drive prepared successfully" ;;;
  _print_summary self dest_path ;;;
  ret true.

(** [_format_windows]. *)
Definition _format_windows (drive fs_type : string) : M bool :=
  try_except
    (let drive := PyStr.rstrip "\" drive in
     run ["format"; drive; "/FS:" +:+ fs_type; "/Q"; "/Y"] true false None ;;;
     ret true)
    (fun x => match x with
              | CalledProcessError => Some (log ERROR "Format failed" ;;; ret false)
              | _ => None
              end).

(** [_format_linux]. *)
Definition _format_linux (device fs_type : string) : M bool :=
  try_except
    (run ["umount"; device] false false None ;;;
     let fstype := if String.eqb fs_type "FAT32" then "vfat" else "ntfs" in
     run ["mkfs." +:+ fstype; device] true false None ;;;
     ret true)
    (fun x => match x with
              | CalledProcessError => Some (log ERROR "Format failed" ;;; ret false)
              | _ => None
              end).

(** [_format_macos]. *)
Definition _format_macos (device fs_type : string) : M bool :=
  try_except
    (run ["diskutil"; "eraseDisk"; fs_type; "LGTVDOWN"; device] true false None ;;;
     ret true)
    (fun x => match x with
              | CalledProcessError => Some (log ERROR "Format failed" ;;; ret false)
              | _ => None
              end).

(** [format_drive], a static method. *)
Definition format_drive (usb_path fs_type : string) : M bool :=
  log WARNING "FORMATTING WILL ERASE ALL DATA" ;;;
  confirm <- input "Type 'YES' to confirm: " ;;
  if negb (String.eqb confirm "YES") then
    log INFO "Format cancelled" ;;; ret false
  else
  log INFO "Formatting" ;;;
  s1 <- platform_system ;;
  if String.eqb s1 "Windows" then _format_windows usb_path fs_type
  else
  s2 <- platform_system ;;
  if String.eqb s2 "Linux" then _format_linux usb_path fs_type
  else
  s3 <- platform_system ;;
  if String.eqb s3 "Darwin" then _format_macos usb_path fs_type
  else
  log ERROR "Unsupported platform" ;;; ret false.

(** The fixed destination of the staged file:
    [<volume>/LG_DTV/<firmware-filename>]. *)
Definition staged (self : prepper) (firmware_path : path) : path :=
  join (join (usb_path self) "LG_DTV") (name firmware_path).

(** A world in which staging can go through: the firmware is a regular
    file, the volume a directory, [LG_DTV] on it is absent or a
    directory, the destination is absent or a regular file other than
    the source, and the device refuses neither the folder nor the
    write. *)
Record ready (self : prepper) (fw : path) (content : string) (e : env) (w : world)
  : Prop := {
  ready_source : files w !! fw = Some (File content);
  ready_named : name fw <> EmptyString;
  ready_volume : files w !! usb_path self = Some Dir;
  ready_folder : files w !! join (usb_path self) "LG_DTV" = None \/
                 files w !! join (usb_path self) "LG_DTV" = Some Dir;
  ready_target : files w !! staged self fw = None \/
                 exists old, files w !! staged self fw = Some (File old);
  ready_distinct : staged self fw <> fw;
  ready_mkdir : mkdir_denied e (join (usb_path self) "LG_DTV") = false;
  ready_write : write_fails e (staged self fw) = None;
}.

(** The file tree once [LG_DTV] is made on the volume. *)
Definition with_folder (self : prepper) (w : world) : gmap path node :=
  <[join (usb_path self) "LG_DTV" := Dir]> (files w).

(** Where [shutil.copy2] writes: the destination itself, or the source's
    name under it when the destination is a directory. *)
Definition landing (w : world) (src dst : path) : path :=
  match files w !! dst with
  | Some Dir => join dst (name src)
  | _ => dst
  end.

(** Where the copy of [prepare_firmware] lands. *)
Definition lands (self : prepper) (fw : path) (w : world) : path :=
  landing (with_files w (with_folder self w)) fw (staged self fw).

(** [os.makedirs] goes through: the folder is there already, or it is
    free, the volume is a directory and the device lets it be made. *)
Definition folder_ok (self : prepper) (e : env) (w : world) : Prop :=
  files w !! join (usb_path self) "LG_DTV" = Some Dir \/
  (files w !! join (usb_path self) "LG_DTV" = None /\
   files w !! usb_path self = Some Dir /\
   mkdir_denied e (join (usb_path self) "LG_DTV") = false).

(** The file at [to] can be opened for writing from [src] in the tree
    [fs]: it is not the source itself, not a directory, lies in a
    directory, and the device does not refuse to open it. *)
Definition write_ok (e : env) (fs : gmap path node) (src to : path) : Prop :=
  to <> src /\
  fs !! to <> Some Dir /\
  fs !! parent to = Some Dir /\
  write_fails e to <> Some OpenDenied.

(** The world once [format_drive] has warned, prompted and announced the
    format. *)
Definition prompted (w : world) : world :=
  {| files := files w;
     trace := trace w ++ [Log WARNING "FORMATTING WILL ERASE ALL DATA";
                          Input "Type 'YES' to confirm: ";
                          Log INFO "Formatting"];
     clock := clock w |}.

End USBPrepper.

(** ** ssh_helper.py, class SSHHelper *)

Module SSHHelper.
Import Py Subprocess Socket.
Local Open Scope py_scope.

(** The attributes set by [__init__]. *)
Record helper := {
  tv_ip : string;
  port : Z;
  user : string;
}.

(** [SSHHelper(tv_ip, port)]; the port defaults to 9922. *)
Definition init (tv_ip : string) (port : Z) : helper :=
  {| tv_ip := tv_ip; port := port; user := "prisoner" |}.

(** [test_connection]. *)
Definition test_connection (self : helper) : M bool :=
  try_except
    (sock <- socket_new ;;
     sock <- settimeout sock 5 ;;
     result <- connect_ex sock (tv_ip self) (port self) ;;
     close sock ;;;
     if (result =? 0)%Z then
       log INFO "TV is reachable" ;;; ret true
     else
       log ERROR "Cannot connect to TV" ;;; ret false)
    (fun x => match x with
              | Gaierror => Some (log ERROR "Invalid IP address" ;;; ret false)
              | _ => Some (log ERROR "Connection test failed" ;;; ret false)
              end).

(** The argument list [ssh_cmd] built at the start of [_execute_command]. *)
Definition ssh_cmd (self : helper) (command : string) : list string :=
  ["ssh";
   "-p"; pretty (port self);
   "-o"; "StrictHostKeyChecking=no";
   "-o"; "UserKnownHostsFile=/dev/null";
   "-o"; "ConnectTimeout=10";
   user self +:+ "@" +:+ tv_ip self;
   command].

(** [_execute_command]. *)
Definition _execute_command (self : helper) (command : string) (capture_output : bool)
  : M (option string) :=
  let ssh_cmd := ssh_cmd self command in
  try_except
    (log INFO "Executing command via SSH..." ;;;
     if capture_output then
       result <- run ssh_cmd false true (Some 30%N) ;;
       if (returncode result =? 0)%Z then ret (Some (stdout result))
       else log ERROR "Command failed" ;;; ret None
     else
       run ssh_cmd true false (Some 30%N) ;;;
       ret (Some "Command sent"))
    (fun x => match x with
              | TimeoutExpired => Some (log ERROR "Command timed out" ;;; ret None)
              | CalledProcessError => Some (log ERROR "SSH command failed" ;;; ret None)
              | FileNotFoundError => Some (log ERROR "SSH client not found. Please install OpenSSH." ;;;
                                           ret None)
              | _ => None
              end).

Definition dq : string := String (ascii_of_nat 34) EmptyString.


(** [send_expert_mode]. *)
Definition send_expert_mode (self : helper) : M (option string) :=
  let command :=
    "luna-send-pub -d -n 1 -f " +:+
    dq +:+ "luna://com.webos.applicationManager/launch" +:+ dq +:+ " " +:+
    "'{" +:+ dq +:+ "id" +:+ dq +:+ ": " +:+ dq +:+ "com.webos.app.softwareupdate" +:+ dq +:+ ", " +:+
    dq +:+ "params" +:+ dq +:+ ": {" +:+ dq +:+ "mode" +:+ dq +:+ ": " +:+ dq +:+ "expert" +:+ dq +:+ ", " +:+
    dq +:+ "flagUpdate" +:+ dq +:+ ": true}}'" in
  _execute_command self command false.

(** The truth value of an [Optional[str]]. *)
Definition truthy (r : option string) : bool :=
  match r with
  | None => false
  | Some s => negb (String.eqb s EmptyString)
  end.

(** [get_firmware_info]. *)
Definition get_firmware_info (self : helper) : M (option string) :=
  let command :=
    "luna-send-pub -n 1 " +:+ dq +:+
    "luna://com.webos.service.tvproperty/getSystemInfo" +:+ dq +:+ " '{}'" in
  result <- _execute_command self command true ;;
  ret (if truthy result then result else None).


(** The tool failures [_execute_command] has an [except] clause or a
    test for: no such file, a run past [limit] seconds, and a return
    code other than zero once the output, when it is captured, has been
    decoded. *)
Definition caught_failure (limit : N) (capture : bool) (p : process) : bool :=
  match p with
  | Missing => true
  | BrokenPath | NotExecutable => false
  | Exits duration rc _ _ =>
      (seconds limit <? duration)%N || negb (rc =? 0)%Z
  | Garbled duration rc =>
      (seconds limit <? duration)%N || (negb capture && negb (rc =? 0)%Z)
  end.



(** The command text of [get_firmware_info]. *)
Definition firmware_info_command : string :=
  "luna-send-pub -n 1 " +:+ dq +:+
  "luna://com.webos.service.tvproperty/getSystemInfo" +:+ dq +:+ " '{}'".

(** The peer accepts the connection within [limit] milliseconds. *)
Definition accepts_within (e : env) (host : string) (port : Z) (limit : N) : Prop :=
  exists after, connect e host port = Answers after 0 /\ (after <= limit)%N.

(** The command text of [check_developer_mode]. *)
Definition list_apps_command : string :=
  "luna-send-pub -n 1 " +:+ dq +:+
  "luna://com.webos.applicationManager/listApps" +:+ dq +:+ " '{}'".

(** [check_developer_mode]. *)
Definition check_developer_mode (self : helper) : M bool :=
  let command :=
    "luna-send-pub -n 1 " +:+ dq +:+
    "luna://com.webos.applicationManager/listApps" +:+ dq +:+ " '{}'" in
  result <- _execute_command self command true ;;
  match result with
  | Some out =>
      if truthy result && PyStr.contains_sub "developer" (PyStr.lower out)
      then ret true else ret false
  | None => ret false
  end.

(** The program ran to its end within [limit] seconds and returned
    code 0. *)
Definition exit_ok (limit : N) (p : process) : bool :=
  match p with
  | Exits duration rc _ _ | Garbled duration rc =>
      (duration <=? seconds limit)%N && (rc =? 0)%Z
  | Missing | BrokenPath | NotExecutable => false
  end.

(** What the program wrote to its standard output, when all it wrote is
    text. *)
Definition output (p : process) : option string :=
  match p with
  | Exits _ _ out _ => Some out
  | _ => None
  end.

End SSHHelper.

(** ** lgtv_downgrade.py, class LGTVDowngrader *)

Module LGTVDowngrader.
Import Py FileSystem Subprocess Socket.
Local Open Scope py_scope.

(** [prepare_usb]. *)
Definition prepare_usb (firmware_path usb_path : path) : M bool :=
  log INFO "Preparing USB drive" ;;;
  let prepper := {| USBPrepper.usb_path := usb_path; USBPrepper.system := EmptyString |} in
  success <- USBPrepper.prepare_firmware prepper firmware_path ;;
  if success then
    log INFO "USB drive prepared successfully" ;;; ret true
  else
    log ERROR "Failed to prepare USB drive" ;;; ret false.

(** [connect_tv]; [SSHHelper(tv_ip)] takes the default port 9922. *)
Definition connect_tv (tv_ip : string) : M bool :=
  log INFO "Testing connection to TV" ;;;
  let ssh := SSHHelper.init tv_ip 9922 in
  reachable <- SSHHelper.test_connection ssh ;;
  if reachable then
    log INFO "Connected to TV" ;;; ret true
  else
    log ERROR "Cannot connect to TV" ;;; ret false.


End LGTVDowngrader.

(** ** ssh_helper.py, the network sweeps *)

Module Discovery.
Import Py Subprocess Socket SSHHelper.
Local Open Scope py_scope.

(** The text of an IPv4 address given as a 32-bit number. *)
Definition ip_str (a : N) : string :=
  pretty ((a / 16777216) mod 256)%N +:+ "." +:+
  pretty ((a / 65536) mod 256)%N +:+ "." +:+
  pretty ((a / 256) mod 256)%N +:+ "." +:+
  pretty (a mod 256)%N.

(** [IPv4Network(f"{local_ip}/24", strict=False).network_address]: the
    address under the mask 255.255.255.0. *)
Definition network_address (local_ip : N) : N := N.land local_ip 4294967040.

(** [range(first, first + count)]. *)
Definition range (first count : nat) : list N := map N.of_nat (seq first count).




(** The loop of [TVDiscovery._scan_ports], inside its [try]: an exception
    ends the loop, and [except Exception: pass] lets the method return
    the devices found so far. *)
Fixpoint _scan_ports_loop (prefix : string) (hosts : list N) (devices : list string)
  : M (list string) :=
  match hosts with
  | [] => ret devices
  | i :: rest =>
      let ip := prefix +:+ "." +:+ pretty i in
      fun e w =>
        match test_connection (init ip 9922) e w with
        | (w', Return reachable) =>
            _scan_ports_loop prefix rest (if reachable then devices ++ [ip] else devices) e w'
        | (w', Raise _) => (w', Return devices)
        end
  end.

(** [TVDiscovery._scan_ports].  [local] is what the datagram socket
    yields for the local address, as text. *)
Definition _scan_ports (local : outcome string) : M (list string) :=
  match local with
  | Raise _ => ret []
  | Return local_ip =>
      let prefix := PyStr.join_str "." (take 3 (PyStr.split_char "." local_ip)) in
      _scan_ports_loop prefix (range 1 99) []
  end.

(** The connection attempts a trace shows, in order. *)
Fixpoint connects (t : list event) : list (string * Z) :=
  match t with
  | [] => []
  | ConnectEx host port :: rest => (host, port) :: connects rest
  | _ :: rest => connects rest
  end.

(** What [test_connection] answers for a host and port. *)
Definition reachable (e : env) (host : string) (port : Z) : bool :=
  negb (socket_denied e) &&
  match connect e host port with
  | Answers after errno => (after <=? seconds 5)%N && (errno =? 0)%Z
  | _ => false
  end.

(** The addresses [scan_network] probes for the hosts [hosts] of
    [network]. *)
Definition addresses (network : N) (hosts : list N) : list string :=
  map (fun i => ip_str (network + i)) hosts.

(** The addresses [_scan_ports] builds from a prefix. *)
Definition port_addresses (prefix : string) (hosts : list N) : list string :=
  map (fun i => prefix +:+ "." +:+ pretty i) hosts.

End Discovery.

(** ** Sample worlds *)

Module Samples.
Import Py.

(** An environment in which nothing goes wrong: Linux, [YES] typed at the
    prompt, every program exits at once with code 0, no write fails,
    every peer accepts after 20 ms. *)
Definition calm : env :=
  {| system := "Linux";
     stdin := Some "YES";
     spawn := fun _ _ => Exits 10 0 EmptyString EmptyString;
     mkdir_denied := fun _ => false;
     write_fails := fun _ => None;
     socket_denied := false;
     connect := fun _ _ => Answers 20 0;
     syn_timeout := 120000 |}.

(** [/home/fw.epk] and an empty volume mounted on [/mnt/usb]. *)
Definition disk : gmap path node :=
  <[ ["mnt"; "usb"] := Dir ]>
    (<[ ["mnt"] := Dir ]>
       (<[ ["home"; "fw.epk"] := File "firmware image" ]>
          (<[ ["home"] := Dir ]> (<[ [] := Dir ]> ∅)))).

Definition fresh : world := {| files := disk; trace := []; clock := 0 |}.

(** The same with a regular file called [LG_DTV] on the volume. *)
Definition blocked : world :=
  {| files := <[ ["mnt"; "usb"; "LG_DTV"] := File "notes" ]> disk;
     trace := []; clock := 0 |}.

(** The same with the firmware already staged as [LG_DTV/fw.epk]. *)
Definition staged_already : world :=
  {| files := <[ ["mnt"; "usb"; "LG_DTV"; "fw.epk"] := File "firmware image" ]>
                (<[ ["mnt"; "usb"; "LG_DTV"] := Dir ]> disk);
     trace := []; clock := 0 |}.

Definition stick : USBPrepper.prepper :=
  {| USBPrepper.usb_path := ["mnt"; "usb"]; USBPrepper.system := "Linux" |}.

(** The answer [yes] at the prompt. *)
Definition hesitant : env :=
  {| system := "Linux";
     stdin := Some "yes";
     spawn := fun _ _ => Exits 10 0 EmptyString EmptyString;
     mkdir_denied := fun _ => false;
     write_fails := fun _ => None;
     socket_denied := false;
     connect := fun _ _ => Answers 20 0;
     syn_timeout := 120000 |}.

(** A television that refuses the connection after 3 ms. *)
Definition refusing : env :=
  {| system := "Linux";
     stdin := None;
     spawn := fun _ _ => Exits 10 255 EmptyString EmptyString;
     mkdir_denied := fun _ => false;
     write_fails := fun _ => None;
     socket_denied := false;
     connect := fun _ _ => Answers 3 111;
     syn_timeout := 120000 |}.

(** No [ssh] program installed, and no answer from the network. *)
Definition bare : env :=
  {| system := "Linux";
     stdin := None;
     spawn := fun _ _ => Missing;
     mkdir_denied := fun _ => false;
     write_fails := fun _ => None;
     socket_denied := false;
     connect := fun _ _ => Silent;
     syn_timeout := 120000 |}.

(** A device that runs full after four characters. *)
Definition cramped : env :=
  {| system := "Linux";
     stdin := Some "YES";
     spawn := fun _ _ => Exits 10 0 EmptyString EmptyString;
     mkdir_denied := fun _ => false;
     write_fails := fun _ => Some (ShortWrite 4);
     socket_denied := false;
     connect := fun _ _ => Answers 20 0;
     syn_timeout := 120000 |}.

(** A stick whose path is the firmware file itself, a regular file. *)
Definition not_a_volume : USBPrepper.prepper :=
  {| USBPrepper.usb_path := ["home"; "fw.epk"]; USBPrepper.system := "Linux" |}.

(** The platform [sys], the line [line] at the prompt, and programs that
    end as [p] tells. *)
Definition setting (sys : string) (line : option string)
    (p : nat -> list string -> process) : env :=
  {| system := sys;
     stdin := line;
     spawn := p;
     mkdir_denied := fun _ => false;
     write_fails := fun _ => None;
     socket_denied := false;
     connect := fun _ _ => Unresolvable;
     syn_timeout := 120000 |}.

(** An [ssh] that fails for the command [reboot] only. *)
Definition picky : env :=
  setting "Linux" None
    (fun _ argv =>
       if String.eqb (List.last argv EmptyString) "reboot"
       then Exits 10 1 EmptyString "refused"
       else Exits 10 0 (String (ascii_of_nat 13) (String (ascii_of_nat 10) "done"))
                        EmptyString).



End Samples.

(** * Part II: properties *)

(** ** Strings *)

Module PyStrFacts.
Import PyStr.

Lemma contains_In x xs : contains x xs = true <-> In x xs.
Proof.
  induction xs as [|y xs IH]; simpl.
  - split; [discriminate | tauto].
  - destruct (String.eqb_spec x y) as [->|Hne].
    + split; auto.
    + rewrite IH. split; [auto | intros [Heq|H]; [congruence | exact H]].
Qed.

Lemma startswith_app s p : startswith s p = true <-> exists t, s = p +:+ t.
Proof.
  unfold startswith. revert s.
  induction p as [|a p IH]; intros s; simpl.
  - destruct s; split; eauto.
  - destruct s as [|b s]; simpl.
    + split; [discriminate | intros [t Ht]; discriminate].
    + destruct (ascii_dec a b) as [->|Hne].
      * rewrite IH. split; intros [t Ht]; exists t; [by rewrite Ht | by injection Ht].
      * split; [discriminate | intros [t Ht]; injection Ht; congruence].
Qed.

End PyStrFacts.

(** ** The firmware classifier *)

Module FirmwareDatabaseFacts.
Import PyStr PyStrFacts FirmwareDatabase.

Lemma is_rootable_loop_spec version vals :
  is_rootable_loop version vals = true <->
  exists versions, In versions vals /\ In version versions.
Proof.
  induction vals as [|vs vals IH]; simpl.
  - split; [discriminate | intros (? & [] & _)].
  - destruct (contains version vs) eqn:Hc.
    + split; [intros _ | reflexivity].
      exists vs. split; [by left | by apply contains_In].
    + rewrite IH. split.
      * intros (vs' & Hin & Hv). exists vs'. split; [by right | done].
      * intros (vs' & [<- | Hin] & Hv).
        -- apply contains_In in Hv. congruence.
        -- by exists vs'.
Qed.

Lemma is_rootable_spec version : is_rootable version = true <-> in_rootable_table version.
Proof.
  unfold is_rootable, in_rootable_table, values.
  rewrite is_rootable_loop_spec. split.
  - intros (vs & Hin & Hv). apply in_map_iff in Hin as ([k vs'] & <- & Hin).
    by exists k, vs'.
  - intros (k & vs & Hin & Hv). exists vs. split; [| done].
    apply in_map_iff. by exists (k, vs).
Qed.

Lemma is_patched_loop_spec version entries :
  is_patched_loop version entries = true <->
  exists entry, In entry entries /\ startswith version (rstrip "x" entry) = true.
Proof.
  induction entries as [|en entries IH]; simpl.
  - split; [discriminate | intros (? & [] & _)].
  - destruct (startswith version (rstrip "x" en)) eqn:Hs.
    + split; [intros _ | reflexivity]. exists en. by split; [left |].
    + rewrite IH. split.
      * intros (en' & Hin & Hv). exists en'. by split; [right |].
      * intros (en' & [<- | Hin] & Hv); [congruence | by exists en'].
Qed.

Lemma is_patched_spec version :
  is_patched version = true <-> matches_patched_prefix version.
Proof. apply is_patched_loop_spec. Qed.

(** The rootable versions, flattened. *)
Lemma is_rootable_cases version :
  is_rootable version = true ->
  In version ["4.x.x"; "03.21.30"; "03.20.14"; "03.21.40";
              "05.00.00"; "05.10.00"; "05.20.00"; "06.00.00"; "06.10.00"].
Proof.
  intros H. apply is_rootable_spec in H as (k & vs & Hin & Hv).
  simpl in Hin.
  destruct Hin as [Heq | [Heq | [Heq | []]]]; injection Heq as <- <-;
    simpl in Hv |- *; tauto.
Qed.

Lemma spec_table_matches_prefix version :
  in_patched_table_spec version -> matches_patched_prefix version.
Proof.
  intros (en & Hin & H). exists en. split; [done |].
  destruct (is_wildcard en) eqn:Hw; [done |].
  subst version. simpl in Hin.
  destruct Hin as [<- | [<- | [<- | []]]]; try reflexivity; discriminate.
Qed.

(** C1: a version occurs in some list of the rootable table exactly when
    [is_rootable] returns [True], a version in none of the lists gets
    [False], and the literal entry [4.x.x] is rootable. *)
Theorem is_rootable_table :
  (forall version, is_rootable version = true <-> in_rootable_table version) /\
  (forall version, is_rootable version = false <-> ~ in_rootable_table version) /\
  is_rootable "4.x.x" = true.
Proof.
  split; [exact is_rootable_spec |]. split; [| reflexivity].
  intros version. rewrite <- is_rootable_spec.
  destruct (is_rootable version); split; congruence.
Qed.

(** C2, as stated, fails: [03.30.101] is in neither table (the entry
    [03.30.10] is no wildcard) yet [is_patched] returns [True] for it. *)
Lemma patched_prefix_of_plain_entry :
  ~ in_rootable_table "03.30.101" /\
  ~ in_patched_table_spec "03.30.101" /\
  is_patched "03.30.101" = true /\
  classify "03.30.101" = Patched.
Proof.
  repeat split; try reflexivity.
  - rewrite <- is_rootable_spec. discriminate.
  - intros (en & Hin & H). simpl in Hin.
    destruct Hin as [<- | [<- | [<- | []]]]; simpl in H; discriminate.
Qed.

(** C2, amended: [is_patched] returns [True] exactly for the versions
    that begin with [03.30.10], [03.30.14] or [03.40.], every entry of the
    patched table being read as a prefix once its trailing [x]s are
    stripped; this covers every version in the patched table.  A version
    is unknown exactly when it is in no list of the rootable table and
    begins with none of these prefixes.  Version [03.30.10] is patched
    and its recommended target is [03.21.30]. *)
Theorem is_patched_prefixes :
  (forall version,
     is_patched version = true <->
     startswith version "03.30.10" = true \/
     startswith version "03.30.14" = true \/
     startswith version "03.40." = true) /\
  (forall version, in_patched_table_spec version -> is_patched version = true) /\
  (forall version,
     classify version = Unknown <->
     ~ in_rootable_table version /\ ~ matches_patched_prefix version) /\
  (forall version,
     classify version = Unknown <->
     is_rootable version = false /\ is_patched version = false) /\
  classify "03.30.10" = Patched /\
  recommend_firmware "03.30.10" = Some "03.21.30".
Proof.
  split; [| split; [| split; [| split; [| split; reflexivity]]]].
  - intros version. unfold is_patched. simpl.
    destruct (startswith version "03.30.10"), (startswith version "03.30.14"),
      (startswith version "03.40."); intuition congruence.
  - intros version H. by apply is_patched_spec, spec_table_matches_prefix.
  - intros version. rewrite <- is_rootable_spec, <- is_patched_spec.
    unfold classify.
    destruct (is_rootable version), (is_patched version); intuition congruence.
  - intros version. unfold classify.
    destruct (is_rootable version), (is_patched version); intuition congruence.
Qed.

(** C9: [recommend_firmware] always returns a version, never [None]: the
    version itself when it is rootable, [03.21.30] otherwise, whether the
    version is patched or unknown. *)
Theorem recommend_firmware_total :
  forall version,
    is_Some (recommend_firmware version) /\
    ((is_rootable version = true /\ recommend_firmware version = Some version) \/
     (is_rootable version = false /\ recommend_firmware version = Some "03.21.30")).
Proof.
  intros version. unfold recommend_firmware.
  destruct (is_rootable version); split; eauto.
Qed.

(** C10: no version is both rootable and patched, and no entry of the
    rootable table begins with a prefix of the patched table. *)
Theorem rootable_patched_exclusive :
  (forall version, is_rootable version && is_patched version = false) /\
  map (rstrip "x") PATCHED_FIRMWARE = ["03.30.10"; "03.30.14"; "03.40."] /\
  forallb
    (fun rootable =>
       forallb (fun entry => negb (startswith rootable (rstrip "x" entry)))
         PATCHED_FIRMWARE)
    (concat (values ROOTABLE_FIRMWARE)) = true.
Proof.
  split; [| split; reflexivity].
  intros version. destruct (is_rootable version) eqn:Hr; [| reflexivity].
  apply is_rootable_cases in Hr. simpl in Hr.
  repeat (destruct Hr as [<- | Hr]; [reflexivity |]). destruct Hr.
Qed.

End FirmwareDatabaseFacts.

(** ** The pattern matcher *)

Module RegexFacts.
Import PyStr Regex.

Lemma append_nil_r s : s +:+ EmptyString = s.
Proof. induction s as [|c s IH]; simpl; [done | by rewrite IH]. Qed.

Lemma append_assoc s t u : (s +:+ t) +:+ u = s +:+ (t +:+ u).
Proof. induction s as [|c s IH]; simpl; [done | by rewrite IH]. Qed.

Lemma append_nil_inv s t : s +:+ t = EmptyString -> s = EmptyString /\ t = EmptyString.
Proof. destruct s; simpl; [done | discriminate]. Qed.

Lemma matches_nil_nullable r s : matches r s -> s = EmptyString -> nullable r = true.
Proof.
  induction 1 as [| | |r1 r2 s1 s2 _ IH1 _ IH2| |]; intros Hs; try done.
  apply append_nil_inv in Hs as [-> ->]. simpl. by rewrite IH1, IH2.
Qed.

Lemma nullable_spec r : nullable r = true <-> matches r EmptyString.
Proof.
  split; [| intros H; by eapply matches_nil_nullable].
  induction r as [| | | |r1 IH1 r2 IH2|]; simpl; try discriminate.
  - intros _. constructor.
  - intros [H1 H2]%andb_prop. apply (MCat r1 r2 EmptyString EmptyString); auto.
  - intros _. constructor.
Qed.

(** One step forward: a match of a non-empty string leaves a match of an
    alternative of the derivative. *)
Lemma deriv_complete r s0 :
  matches r s0 -> forall c s, s0 = String c s ->
  exists d, In d (deriv c r) /\ matches d s.
Proof.
  induction 1 as [|a Ha|p a Ha|r1 r2 s1 s2 H1 IH1 H2 IH2| |r s1 s2 H1 IH1 H2 IH2];
    intros c s Hs; try discriminate.
  - injection Hs as -> <-. exists Eps. simpl. rewrite Ha. split; [by left | constructor].
  - injection Hs as -> <-. exists Eps. simpl. rewrite Ha. split; [by left | constructor].
  - destruct s1 as [|b s1]; simpl in Hs.
    + destruct (IH2 c s Hs) as (d & Hd & Hm). exists d. split; [| done].
      simpl. apply in_or_app. right.
      by rewrite (matches_nil_nullable r1 EmptyString H1 eq_refl).
    + injection Hs as -> <-.
      destruct (IH1 c s1 eq_refl) as (d & Hd & Hm).
      exists (Cat d r2). split; [| by constructor].
      simpl. apply in_or_app. left. apply in_map_iff. by exists d.
  - destruct s1 as [|b s1]; simpl in Hs.
    + by apply IH2.
    + injection Hs as -> <-.
      destruct (IH1 c s1 eq_refl) as (d & Hd & Hm).
      exists (Cat d (Star r)). split; [| by constructor].
      simpl. apply in_map_iff. by exists d.
Qed.

Lemma matches_cat_inv r1 r2 s :
  matches (Cat r1 r2) s -> exists s1 s2, s = s1 +:+ s2 /\ matches r1 s1 /\ matches r2 s2.
Proof. inversion 1; subst. eauto. Qed.

(** One step back. *)
Lemma deriv_sound r : forall c d s,
  In d (deriv c r) -> matches d s -> matches r (String c s).
Proof.
  induction r as [| | |p|r1 IH1 r2 IH2|r IH]; intros c d s Hd Hm; simpl in Hd;
    try done.
  - destruct (any_ok c) eqn:Ha; [| done]. destruct Hd as [<- | []].
    inversion Hm; subst. by constructor.
  - destruct (lit_ok p c) eqn:Ha; [| done]. destruct Hd as [<- | []].
    inversion Hm; subst. by constructor.
  - apply in_app_or in Hd as [Hd | Hd].
    + apply in_map_iff in Hd as (d' & <- & Hd').
      apply matches_cat_inv in Hm as (s1 & s2 & -> & Hm1 & Hm2).
      apply (MCat r1 r2 (String c s1) s2); eauto.
    + destruct (nullable r1) eqn:Hn; [| done].
      apply (MCat r1 r2 EmptyString (String c s)); [by apply nullable_spec | eauto].
  - apply in_map_iff in Hd as (d' & <- & Hd').
    apply matches_cat_inv in Hm as (s1 & s2 & -> & Hm1 & Hm2).
    apply (MStarApp r (String c s1) s2); eauto.
Qed.

Lemma match_from_spec s : forall rs,
  match_from rs s = true <-> exists r, In r rs /\ matches_prefix r s.
Proof.
  induction s as [|c s IH]; intros rs; simpl.
  - destruct (existsb nullable rs) eqn:Hn.
    + split; [intros _ | done].
      apply existsb_exists in Hn as (r & Hr & Hn). exists r. split; [done |].
      exists EmptyString, EmptyString. split; [done | by apply nullable_spec].
    + split; [done |]. intros (r & Hr & pre & post & Hs & Hm).
      symmetry in Hs. apply append_nil_inv in Hs as [-> ->].
      assert (existsb nullable rs = true); [| congruence].
      apply existsb_exists. exists r. split; [done | by apply nullable_spec].
  - destruct (existsb nullable rs) eqn:Hn.
    + split; [intros _ | done].
      apply existsb_exists in Hn as (r & Hr & Hn). exists r. split; [done |].
      exists EmptyString, (String c s). split; [done | by apply nullable_spec].
    + rewrite IH. split.
      * intros (d & Hd & pre & post & -> & Hm).
        apply in_flat_map in Hd as (r & Hr & Hd).
        exists r. split; [done |]. exists (String c pre), post.
        split; [done | by eapply deriv_sound].
      * intros (r & Hr & pre & post & Hs & Hm).
        destruct pre as [|b pre]; simpl in Hs.
        -- assert (existsb nullable rs = true); [| congruence].
           apply existsb_exists. exists r. split; [done | by apply nullable_spec].
        -- injection Hs as <- ->.
           destruct (deriv_complete _ _ Hm c pre eq_refl) as (d & Hd & Hm').
           exists d. split; [apply in_flat_map; by exists r |].
           by exists pre, post.
Qed.

(** [Pattern.match] succeeds exactly when a prefix of the string is in
    the language of the pattern. *)
Lemma re_match_spec r s : re_match r s = true <-> matches_prefix r s.
Proof.
  unfold re_match. rewrite match_from_spec. split.
  - by intros (r' & [<- | []] & H).
  - intros H. exists r. by split; [left |].
Qed.

Lemma matches_star_any s : matches (Star AnyChar) s <-> ~ has_char newline s.
Proof.
  split.
  - remember (Star AnyChar) as r eqn:Hr. induction 1 as [| | | | |r s1 s2 H1 _ H2 IH2];
      try discriminate; [simpl; tauto |].
    injection Hr as ->. inversion H1 as [|c Hc| | | |]; subst. simpl.
    intros [<- | H]; [| by apply IH2].
    unfold any_ok in Hc. by rewrite Ascii.eqb_refl in Hc.
  - induction s as [|c s IH]; simpl; intros H; [constructor |].
    apply (MStarApp AnyChar (String c EmptyString) s).
    + constructor. unfold any_ok. destruct (Ascii.eqb_spec c newline); [| done].
      subst. tauto.
    + apply IH. tauto.
Qed.

Lemma matches_literal w s : matches (literal w) s <-> ci_eq s w.
Proof.
  unfold ci_eq. revert s. induction w as [|p w IH]; intros s; simpl.
  - split.
    + inversion 1. done.
    + destruct s; [constructor | discriminate].
  - split.
    + intros (s1 & s2 & -> & H1 & H2)%matches_cat_inv.
      inversion H1 as [| |p' c Hc| | |]; subst. simpl.
      apply IH in H2. unfold lit_ok in Hc. apply Ascii.eqb_eq in Hc. congruence.
    + destruct s as [|c s]; simpl; [discriminate |]. intros [= Hc Hs].
      apply (MCat (Lit p) (literal w) (String c EmptyString) s).
      * constructor. unfold lit_ok. by apply Ascii.eqb_eq.
      * by apply IH.
Qed.

End RegexFacts.

(** ** The firmware cache *)

Module FirmwareFinderFacts.
Import PyStr Regex RegexFacts FirmwareFinder.

(** The text that follows a character of the version in the pattern never
    starts with a repetition star. *)
Lemma escaped_tail_head v :
  plain_version v = true ->
  exists q t, replace_char "." "\." v +:+ "\.epk" = String q t /\ Ascii.eqb q "*" = false.
Proof.
  destruct v as [|c v]; [by exists "\"%char, ".epk" |].
  simpl. intros [Hc _]%andb_prop.
  destruct (Ascii.eqb_spec c ".") as [-> | Hne]; simpl; [by eexists _, _ |].
  exists c, (replace_char "." "\." v +:+ "\.epk"). split; [done |].
  destruct (Ascii.eqb_spec c "*") as [-> | ?]; [discriminate | done].
Qed.

Lemma compile_escaped_version v :
  plain_version v = true ->
  re_compile (replace_char "." "\." v +:+ "\.epk") = Some (literal (v +:+ ".epk")).
Proof.
  induction v as [|c v IH]; [reflexivity |].
  intros Hp. cbn [plain_version] in Hp. apply andb_prop in Hp as [Hc Hv].
  destruct (escaped_tail_head v Hv) as (q & t & Ht & Hq).
  cbn [replace_char].
  destruct (Ascii.eqb_spec c ".") as [-> | Hne].
  - simpl. rewrite Ht, Hq, <- Ht, (IH Hv). done.
  - simpl in Hc. apply negb_true_iff, orb_false_elim in Hc as [Hb Hs].
    apply Ascii.eqb_neq in Hne.
    simpl. rewrite Hb, Hne, Hs, Ht, Hq, <- Ht, (IH Hv). done.
Qed.

Lemma compile_pattern_source self :
  plain_version (target_version self) = true ->
  re_compile (pattern_source self) =
  Some (Cat (Star AnyChar) (literal (target_version self +:+ ".epk"))).
Proof.
  intros Hp. unfold pattern_source. simpl.
  by rewrite (compile_escaped_version _ Hp).
Qed.

(** What the compiled pattern accepts. *)
Lemma re_match_version v name :
  re_match (Cat (Star AnyChar) (literal (v +:+ ".epk"))) name = true <->
  version_then_epk v name.
Proof.
  rewrite re_match_spec. unfold matches_prefix, version_then_epk. split.
  - intros (pre & post & -> & (s1 & s2 & -> & H1 & H2)%matches_cat_inv).
    exists s1, s2, post. rewrite append_assoc. split; [done |].
    split; [by apply matches_star_any | by apply matches_literal].
  - intros (pre & mid & post & -> & Hpre & Hmid).
    exists (pre +:+ mid), post. rewrite append_assoc. split; [done |].
    constructor; [by apply matches_star_any | by apply matches_literal].
Qed.

Lemma check_cache_loop_some r dir files path :
  _check_cache_loop r dir files = Some path <->
  exists name, path = joinpath dir name /\
               first_match (fun n => re_match r n = true) files name.
Proof.
  induction files as [|f files IH]; simpl.
  - split; [discriminate |]. intros (name & _ & before & after & H & _).
    by destruct before.
  - destruct (re_match r f) eqn:Hf.
    + split.
      * intros [= <-]. exists f. split; [done |]. by exists [], files.
      * intros (name & -> & before & after & H & Hn & Hb).
        destruct before as [|b before]; simpl in H; injection H as -> ->; [done |].
        apply Forall_cons in Hb as [Hb _]. congruence.
    + rewrite IH. split.
      * intros (name & -> & before & after & -> & Hn & Hb).
        exists name. split; [done |]. exists (f :: before), after.
        split; [done |]. split; [done |]. constructor; [congruence | done].
      * intros (name & -> & before & after & H & Hn & Hb).
        destruct before as [|b before]; simpl in H; injection H as -> ->; [congruence |].
        apply Forall_cons in Hb as [_ Hb].
        exists name. split; [done |]. by exists before, after.
Qed.

Lemma check_cache_loop_none r dir files :
  _check_cache_loop r dir files = None <->
  forall name, In name files -> re_match r name = false.
Proof.
  induction files as [|f files IH]; simpl; [by split |].
  destruct (re_match r f) eqn:Hf.
  - split; [discriminate |]. intros H. specialize (H f (or_introl eq_refl)). congruence.
  - rewrite IH. split.
    + intros H name [<- | Hin]; auto.
    + intros H name Hin. apply H. by right.
Qed.

Lemma first_match_ext P Q files name :
  (forall n, P n <-> Q n) -> first_match P files name -> first_match Q files name.
Proof.
  intros HPQ (before & after & -> & Hn & Hb). exists before, after.
  split; [done |]. split; [by apply HPQ |].
  eapply Forall_impl; [exact Hb |]. intros n Hn' HQ. by apply Hn', HPQ.
Qed.

(** C3, as stated, fails: the cached file [LG_03.21.30_KR.epk] is an
    [.epk] file whose name contains the version [03.21.30], and the
    lookup returns [None]. *)
Lemma cache_miss_on_containing_name :
  contains_version_spec "03.21.30" "LG_03.21.30_KR.epk" /\
  In "LG_03.21.30_KR.epk"
     (glob_epk {| listing := ["LG_03.21.30_KR.epk"]; case_sensitive := true |}) /\
  _check_cache
    {| tv_model := "OLED55"; target_version := "03.21.30"; firmware_dir := "firmware" |}
    {| listing := ["LG_03.21.30_KR.epk"]; case_sensitive := true |} = Some None.
Proof.
  split; [| split; [by left | reflexivity]].
  by exists "LG_", "03.21.30", "_KR.epk".
Qed.

(** C3, amended: for a version whose characters have no meaning of their
    own in a pattern (the dot apart), the lookup returns the path of the
    first file of the [*.epk] listing whose name has, after any number
    of characters other than a newline, the version followed directly by
    [.epk], compared without regard to case; it returns [None] exactly
    when no listed [*.epk] file has such a name.  [find_and_download]
    returns the same value and prints the guide exactly when it is
    [None]. *)
Theorem check_cache_first_match (self : finder) (c : cache) :
  plain_version (target_version self) = true ->
  is_Some (_check_cache self c) /\
  (forall path,
     _check_cache self c = Some (Some path) <->
     exists name,
       path = joinpath (firmware_dir self) name /\
       first_match (version_then_epk (target_version self)) (glob_epk c) name) /\
  (_check_cache self c = Some None <->
   forall name, In name (glob_epk c) -> ~ version_then_epk (target_version self) name) /\
  (forall name,
     In name (glob_epk c) <->
     In name (listing c) /\ fnmatch_epk (case_sensitive c) name = true) /\
  find_and_download self c =
    (fun r => (r, match r with None => true | Some _ => false end)) <$> _check_cache self c.
Proof.
  intros Hp. unfold find_and_download, _check_cache.
  rewrite (compile_pattern_source self Hp). simpl.
  set (r := Cat (Star AnyChar) (literal (target_version self +:+ ".epk"))).
  split; [by eexists |]. split; [| split; [| split]].
  - intros path. split.
    + intros [= H]. apply check_cache_loop_some in H as (name & -> & H).
      exists name. split; [done |].
      eapply first_match_ext; [| exact H]. intros n. apply re_match_version.
    + intros (name & -> & H). f_equal. apply check_cache_loop_some.
      exists name. split; [done |].
      eapply first_match_ext; [| exact H]. intros n. symmetry. apply re_match_version.
  - split.
    + intros [= H] name Hin Hm.
      rewrite check_cache_loop_none in H. specialize (H name Hin).
      apply re_match_version in Hm. fold r in Hm. congruence.
    + intros H. f_equal. apply check_cache_loop_none. intros name Hin.
      destruct (re_match r name) eqn:Hm; [| done].
      exfalso. apply (H name Hin). by apply re_match_version.
  - intros name. unfold glob_epk.
    rewrite <- !list_elem_of_In, list_elem_of_filter. tauto.
  - by destruct (_check_cache_loop r (firmware_dir self) (glob_epk c)).
Qed.

Lemma check_cache_first_match_witness :
  exists name,
    "firmware/FW-03.21.30.EPK.epk" = joinpath "firmware" name /\
    first_match (version_then_epk "03.21.30")
      (glob_epk {| listing := ["notes.txt"; "LG_03.21.30_KR.epk"; "FW-03.21.30.EPK.epk"];
                   case_sensitive := true |})
      name.
Proof.
  apply (proj1 (proj1 (proj2 (check_cache_first_match
    {| tv_model := "OLED55"; target_version := "03.21.30"; firmware_dir := "firmware" |}
    {| listing := ["notes.txt"; "LG_03.21.30_KR.epk"; "FW-03.21.30.EPK.epk"];
       case_sensitive := true |} eq_refl)) _)).
  reflexivity.
Defined.

End FirmwareFinderFacts.

(** ** Running computations *)

Module PyFacts.
Import Py Subprocess.

Lemma bind_return {A B} (m : M A) (k : A -> M B) e w w' a :
  m e w = (w', Return a) -> bind m k e w = k a e w'.
Proof. unfold bind. by intros ->. Qed.

Lemma bind_raise {A B} (m : M A) (k : A -> M B) e w w' x :
  m e w = (w', Raise x) -> bind m k e w = (w', Raise x).
Proof. unfold bind. by intros ->. Qed.

Lemma try_return {A} (m : M A) h e w w' a :
  m e w = (w', Return a) -> try_except m h e w = (w', Return a).
Proof. unfold try_except. by intros ->. Qed.

Lemma try_raise {A} (m : M A) h e w w' x :
  m e w = (w', Raise x) ->
  try_except m h e w = match h x with Some k => k e w' | None => (w', Raise x) end.
Proof. unfold try_except. by intros ->. Qed.

Lemma spawned_app t1 t2 : spawned (t1 ++ t2) = spawned t1 + spawned t2.
Proof.
  induction t1 as [|ev t1 IH]; simpl; [done |].
  destruct ev; simpl; by rewrite IH.
Qed.

End PyFacts.

(** ** Staging on the USB volume *)

Module USBPrepperFacts.
Import Py FileSystem Subprocess USBPrepper PyFacts.

Lemma parent_join p n : n <> EmptyString -> parent (join p n) = p.
Proof.
  intros Hn. unfold parent, join. destruct (String.eqb_spec n EmptyString); [done |].
  apply removelast_last.
Qed.

Lemma join_length p n : n <> EmptyString -> length (join p n) = S (length p).
Proof.
  intros Hn. unfold join. destruct (String.eqb_spec n EmptyString); [done |].
  rewrite length_app. simpl. lia.
Qed.

Lemma join_neq p n : n <> EmptyString -> join p n <> p.
Proof. intros Hn H. apply (f_equal length) in H. rewrite join_length in H by done. lia. Qed.

Lemma join_join_neq p n m :
  n <> EmptyString -> m <> EmptyString -> join (join p n) m <> p.
Proof.
  intros Hn Hm H. apply (f_equal length) in H.
  rewrite !join_length in H by done. lia.
Qed.

(** [os.makedirs(..., exist_ok=True)] for a name directly under an
    existing directory. *)
Lemma makedirs_child e w p n :
  n <> EmptyString ->
  files w !! p = Some Dir ->
  (files w !! join p n = None /\ mkdir_denied e (join p n) = false) \/
  files w !! join p n = Some Dir ->
  makedirs (join p n) true e w =
  (with_files w (<[join p n := Dir]> (files w)), Return tt).
Proof.
  intros Hn Hp Hc. unfold makedirs.
  assert (Hrev : rev (join p n) = n :: rev p).
  { unfold join. destruct (String.eqb_spec n EmptyString); [done |]. apply rev_unit. }
  rewrite Hrev. cbn [makedirs_rev].
  rewrite <- Hrev, !rev_involutive.
  erewrite bind_return; cycle 1.
  { erewrite bind_return; [| unfold exists_; by rewrite Hp]. reflexivity. }
  destruct Hc as [[Hc Hd] | Hc].
  - erewrite try_return; [reflexivity |].
    unfold mkdir. rewrite Hc, parent_join, Hp, Hd; done.
  - erewrite try_raise; cycle 1.
    { unfold mkdir. by rewrite Hc. }
    simpl. erewrite bind_return; [| unfold isdir; by rewrite Hc].
    simpl. unfold ret, with_files. rewrite insert_id by done. by destruct w.
Qed.

(** A regular file in the way makes [os.makedirs] raise, whatever
    [exist_ok] says. *)
Lemma makedirs_child_blocked e w p n content :
  n <> EmptyString ->
  files w !! p = Some Dir ->
  files w !! join p n = Some (File content) ->
  makedirs (join p n) true e w = (w, Raise FileExistsError).
Proof.
  intros Hn Hp Hc. unfold makedirs.
  assert (Hrev : rev (join p n) = n :: rev p).
  { unfold join. destruct (String.eqb_spec n EmptyString); [done |]. apply rev_unit. }
  rewrite Hrev. cbn [makedirs_rev].
  rewrite <- Hrev, !rev_involutive.
  erewrite bind_return; cycle 1.
  { erewrite bind_return; [| unfold exists_; by rewrite Hp]. reflexivity. }
  erewrite try_raise; cycle 1.
  { unfold mkdir. by rewrite Hc. }
  simpl. erewrite bind_return; [| unfold isdir; by rewrite Hc]. done.
Qed.

(** [shutil.copy2] onto a path that is free or holds a regular file. *)
Lemma copy2_file e w src dst content :
  files w !! src = Some (File content) ->
  src <> dst ->
  (files w !! dst = None \/ exists old, files w !! dst = Some (File old)) ->
  files w !! parent dst = Some Dir ->
  write_fails e dst = None ->
  copy2 src dst e w = (with_files w (<[dst := File content]> (files w)), Return dst).
Proof.
  intros Hs Hne Hd Hp Hw. unfold copy2.
  assert (Hnd : isdir dst e w = (w, Return false)).
  { unfold isdir. by destruct Hd as [-> | [old ->]]. }
  erewrite bind_return by exact Hnd.
  erewrite bind_return; [reflexivity |].
  unfold copyfile. erewrite bind_return by reflexivity.
  erewrite bind_return by reflexivity. rewrite Hs.
  assert (Hwr : write_file dst content e w =
                (with_files w (<[dst := File content]> (files w)), Return tt)).
  { unfold write_file. rewrite Hp, Hw. by destruct Hd as [-> | [old ->]]. }
  destruct Hd as [-> | [old ->]].
  - erewrite bind_return by reflexivity. exact Hwr.
  - rewrite bool_decide_eq_false_2 by done.
    erewrite bind_return by reflexivity. exact Hwr.
Qed.

(** One run in a ready world succeeds, makes the folder and writes the
    file, and touches nothing else. *)
Lemma prepare_firmware_ready self fw content e w :
  ready self fw content e w ->
  exists w',
    prepare_firmware self fw e w = (w', Return true) /\
    files w' = <[staged self fw := File content]>
                 (<[join (usb_path self) "LG_DTV" := Dir]> (files w)).
Proof.
  intros [Hs Hn Hv Hf Ht Hd Hm Hw]. unfold staged in *.
  set (lg := join (usb_path self) "LG_DTV") in *.
  set (dest := join lg (name fw)) in *.
  assert (Hlg : lg <> fw) by (intros ->; destruct Hf as [Hf | Hf]; congruence).
  assert (Hdl : dest <> lg) by (by apply join_neq).
  unfold prepare_firmware.
  erewrite bind_return; [| unfold exists_; by rewrite Hs]. simpl.
  erewrite bind_return; [| unfold exists_; by rewrite Hv]. simpl.
  fold lg. fold dest.
  erewrite bind_return; cycle 1.
  { erewrite try_return; [reflexivity |].
    erewrite bind_return; cycle 1.
    { apply makedirs_child; [done | done |]. destruct Hf; [left | right]; done. }
    reflexivity. }
  simpl.
  erewrite bind_return; cycle 1.
  { erewrite try_return; [reflexivity |].
    erewrite bind_return; cycle 1.
    { apply (copy2_file _ _ fw dest content); simpl.
      - by rewrite lookup_insert_ne.
      - done.
      - rewrite lookup_insert_ne by done. exact Ht.
      - unfold dest. rewrite parent_join by done. by rewrite lookup_insert_eq.
      - done. }
    erewrite bind_return; cycle 1.
    { unfold stat. simpl. rewrite lookup_insert_ne by done.
      rewrite lookup_insert_ne by done. by rewrite Hs. }
    reflexivity. }
  simpl.
  erewrite bind_return; [| unfold exists_; simpl; by rewrite lookup_insert_eq]. simpl.
  erewrite bind_return by reflexivity.
  erewrite bind_return; cycle 1.
  { unfold _print_summary. erewrite bind_return;
      [| unfold stat; simpl; by rewrite lookup_insert_eq].
    reflexivity. }
  eexists. split; [reflexivity | reflexivity].
Qed.

(** A world stays ready once the file is staged. *)
Lemma ready_after self fw content e w w' :
  ready self fw content e w ->
  files w' = <[staged self fw := File content]>
               (<[join (usb_path self) "LG_DTV" := Dir]> (files w)) ->
  ready self fw content e w'.
Proof.
  intros [Hs Hn Hv Hf Ht Hd Hm Hw] Hw'.
  assert (Hlg : join (usb_path self) "LG_DTV" <> fw)
    by (intros H; rewrite H in Hf; destruct Hf; congruence).
  assert (Hdl : staged self fw <> join (usb_path self) "LG_DTV")
    by (by apply join_neq).
  assert (Hdu : staged self fw <> usb_path self) by (by apply join_join_neq).
  assert (Hlu : join (usb_path self) "LG_DTV" <> usb_path self) by (by apply join_neq).
  split; rewrite ?Hw'; try done.
  - by rewrite !lookup_insert_ne.
  - by rewrite !lookup_insert_ne.
  - right. rewrite lookup_insert_ne by done. by rewrite lookup_insert_eq.
  - right. exists content. by rewrite lookup_insert_eq.
Qed.

(** C4: when the firmware file or the volume path does not exist,
    [prepare_firmware] returns [False], the file tree is left as it was
    (no folder made, no file copied), and all that happens is one error
    entry in the log. *)
Theorem prepare_firmware_missing_path self fw e w :
  files w !! fw = None \/ files w !! usb_path self = None ->
  snd (prepare_firmware self fw e w) = Return false /\
  files (fst (prepare_firmware self fw e w)) = files w /\
  exists msg, trace (fst (prepare_firmware self fw e w)) = (trace w ++ [Log ERROR msg])%list.
Proof.
  intros H. unfold prepare_firmware.
  destruct (files w !! fw) as [nd |] eqn:Hfw.
  - destruct H as [H | H]; [done |].
    erewrite bind_return; [| unfold exists_; by rewrite Hfw]. simpl.
    erewrite bind_return; [| unfold exists_; by rewrite H]. simpl.
    repeat split; eauto.
  - erewrite bind_return; [| unfold exists_; by rewrite Hfw]. simpl.
    repeat split; eauto.
Qed.

Lemma prepare_firmware_missing_path_witness :
  snd (prepare_firmware Samples.stick ["home"; "missing.epk"] Samples.calm Samples.fresh)
  = Return false /\
  files (fst (prepare_firmware Samples.stick ["home"; "missing.epk"]
                Samples.calm Samples.fresh)) = files Samples.fresh /\
  exists msg,
    trace (fst (prepare_firmware Samples.stick ["home"; "missing.epk"]
                  Samples.calm Samples.fresh)) = (trace Samples.fresh ++ [Log ERROR msg])%list.
Proof.
  apply prepare_firmware_missing_path. left. reflexivity.
Defined.

(** C5, as stated, fails: the firmware file exists and the volume
    exists, but a regular file called [LG_DTV] lies on the volume, and
    [prepare_firmware] returns [False] without staging anything. *)
Lemma staging_blocked_by_file :
  files Samples.blocked !! ["home"; "fw.epk"] = Some (File "firmware image") /\
  files Samples.blocked !! usb_path Samples.stick = Some Dir /\
  snd (prepare_firmware Samples.stick ["home"; "fw.epk"] Samples.calm Samples.blocked)
  = Return false /\
  files (fst (prepare_firmware Samples.stick ["home"; "fw.epk"]
                Samples.calm Samples.blocked))
    !! staged Samples.stick ["home"; "fw.epk"] = None.
Proof. repeat split; vm_compute; reflexivity. Qed.

(** Staging a file that already is the destination fails as well:
    [shutil.copy2] refuses to copy a file onto itself. *)
Example staging_onto_itself :
  snd (prepare_firmware Samples.stick ["mnt"; "usb"; "LG_DTV"; "fw.epk"]
         Samples.calm Samples.staged_already) = Return false.
Proof. vm_compute. reflexivity. Qed.

(** C5, amended: when the firmware is a regular file with a file name,
    the volume a directory, [LG_DTV] on the volume absent or a directory, the
    destination [<volume>/LG_DTV/<firmware-filename>] absent or a
    regular file other than the source, and the device refuses neither
    the folder nor the write, two runs of [prepare_firmware] with the
    same arguments both return [True]; after each the destination holds
    a regular file with the content (hence the size) of the source, the
    second run leaves the file tree exactly as the first left it, and
    the first changes it at the folder and the destination only. *)
Theorem staging_idempotent self fw content e w :
  ready self fw content e w ->
  exists w1 w2,
    prepare_firmware self fw e w = (w1, Return true) /\
    prepare_firmware self fw e w1 = (w2, Return true) /\
    files w1 !! staged self fw = Some (File content) /\
    files w2 !! staged self fw = Some (File content) /\
    files w2 = files w1 /\
    forall p, p <> staged self fw -> p <> join (usb_path self) "LG_DTV" ->
              files w1 !! p = files w !! p.
Proof.
  intros Hr.
  destruct (prepare_firmware_ready _ _ _ _ _ Hr) as (w1 & Hrun1 & Hw1).
  pose proof (ready_after _ _ _ _ _ _ Hr Hw1) as Hr1.
  destruct (prepare_firmware_ready _ _ _ _ _ Hr1) as (w2 & Hrun2 & Hw2).
  assert (Hd1 : files w1 !! staged self fw = Some (File content))
    by (rewrite Hw1; apply lookup_insert_eq).
  assert (Hl1 : files w1 !! join (usb_path self) "LG_DTV" = Some Dir).
  { rewrite Hw1.
    rewrite lookup_insert_ne by (unfold staged; apply join_neq, (ready_named _ _ _ _ _ Hr)).
    apply lookup_insert_eq. }
  assert (Heq : files w2 = files w1).
  { rewrite Hw2. rewrite (insert_id (files w1) _ _ Hl1). by apply insert_id. }
  exists w1, w2. repeat split; try done.
  - by rewrite Heq.
  - intros p Hp1 Hp2. rewrite Hw1. by rewrite !lookup_insert_ne.
Qed.

Lemma staging_idempotent_witness :
  exists w1 w2,
    prepare_firmware Samples.stick ["home"; "fw.epk"] Samples.calm Samples.fresh
      = (w1, Return true) /\
    prepare_firmware Samples.stick ["home"; "fw.epk"] Samples.calm w1
      = (w2, Return true) /\
    files w1 !! staged Samples.stick ["home"; "fw.epk"] = Some (File "firmware image") /\
    files w2 !! staged Samples.stick ["home"; "fw.epk"] = Some (File "firmware image") /\
    files w2 = files w1 /\
    forall p, p <> staged Samples.stick ["home"; "fw.epk"] ->
              p <> join (usb_path Samples.stick) "LG_DTV" ->
              files w1 !! p = files Samples.fresh !! p.
Proof.
  apply staging_idempotent. split.
  - reflexivity.
  - discriminate.
  - reflexivity.
  - left. reflexivity.
  - left. reflexivity.
  - discriminate.
  - reflexivity.
  - reflexivity.
Defined.

End USBPrepperFacts.

(** ** The confirmation before a format *)

Module FormatFacts.
Import Py Subprocess USBPrepper PyFacts.

(** With [YES] typed on Linux the drive is unmounted and formatted. *)
Example format_drive_confirmed :
  format_drive "/dev/sdb1" "FAT32" Samples.calm Samples.fresh =
  ({| files := Samples.disk;
      trace := [Log WARNING "FORMATTING WILL ERASE ALL DATA";
                Input "Type 'YES' to confirm: ";
                Log INFO "Formatting";
                Run ["umount"; "/dev/sdb1"] false false None;
                Run ["mkfs.vfat"; "/dev/sdb1"] true false None];
      clock := 20 |}, Return true).
Proof. reflexivity. Qed.

(** C6: unless the line typed at the prompt is exactly [YES],
    [format_drive] spawns no program at all and leaves the file tree
    alone; it logs the warning, prompts, logs the cancellation and
    returns [False] (at end of input the prompt raises [EOFError]
    instead).  So a formatting command is run only after [YES]. *)
Theorem format_drive_needs_YES usb fs_type e w :
  stdin e <> Some "YES" ->
  spawned (trace (fst (format_drive usb fs_type e w))) = spawned (trace w) /\
  files (fst (format_drive usb fs_type e w)) = files w /\
  trace (fst (format_drive usb fs_type e w)) =
    (trace w ++ [Log WARNING "FORMATTING WILL ERASE ALL DATA";
                 Input "Type 'YES' to confirm: "] ++
     match stdin e with Some _ => [Log INFO "Format cancelled"] | None => [] end)%list /\
  snd (format_drive usb fs_type e w) =
    match stdin e with Some _ => Return false | None => Raise EOFError end.
Proof.
  intros Hno. cbv [format_drive bind log input emit ret]. simpl.
  destruct (stdin e) as [line |] eqn:Hin; simpl.
  - destruct (String.eqb_spec line "YES") as [-> | Hne]; [done |]. simpl.
    rewrite <- !app_assoc. simpl. rewrite spawned_app. simpl.
    repeat split; lia.
  - rewrite <- !app_assoc. simpl. rewrite spawned_app. simpl.
    repeat split; lia.
Qed.

Lemma format_drive_needs_YES_witness :
  spawned (trace (fst (format_drive "/dev/sdb1" "FAT32" Samples.hesitant Samples.fresh)))
  = spawned (trace Samples.fresh) /\
  snd (format_drive "/dev/sdb1" "FAT32" Samples.hesitant Samples.fresh) = Return false.
Proof.
  destruct (format_drive_needs_YES "/dev/sdb1" "FAT32" Samples.hesitant Samples.fresh)
    as (Hs & _ & _ & Hr); [discriminate |].
  split; [exact Hs | exact Hr].
Defined.

End FormatFacts.

(** ** Reaching the television *)

Module SSHHelperFacts.
Import Py Subprocess Socket SSHHelper PyFacts.

(** What [connect_ex] returns on a socket with a timeout. *)
Lemma connect_ex_zero t host port e w :
  (exists w', connect_ex {| timeout := Some t |} host port e w = (w', Return 0%Z)) <->
  accepts_within e host port (seconds t).
Proof.
  cbv [connect_ex accepts_within bind emit]. simpl.
  destruct (connect e host port) as [after errno | | |] eqn:Hc; simpl.
  - destruct (N.leb_spec after (seconds t)) as [Hle | Hgt].
    + split.
      * intros (w' & [= _ ->]). by exists after.
      * intros (a & [= <- ->] & _). by eexists.
    + split; [intros (w' & [=]) |].
      intros (a & [= <- ->] & Hle). lia.
  - split; [intros (w' & [=]) | intros (a & [=] & _)].
  - split; [intros (w' & [=]) | intros (a & [=] & _)].
  - split; [intros (w' & [=]) | intros (a & [=] & _)].
Qed.

(** A listening port is reachable, a refusing or silent one is not, and
    the silent one costs the 5 seconds. *)
Example test_connection_samples :
  snd (test_connection (init "192.168.1.20" 9922) Samples.calm Samples.fresh) = Return true /\
  snd (test_connection (init "192.168.1.20" 9922) Samples.refusing Samples.fresh) = Return false /\
  snd (test_connection (init "192.168.1.20" 9922) Samples.bare Samples.fresh) = Return false /\
  clock (fst (test_connection (init "192.168.1.20" 9922) Samples.bare Samples.fresh)) = 5000%N.
Proof. repeat split; reflexivity. Qed.

(** C7: [test_connection] always returns a boolean; it returns [True]
    exactly when a socket could be made and the peer accepted the
    connection within the 5 seconds set on the socket, that is when
    [connect_ex] returned 0.  A refused, unanswered or failed attempt
    gives [False].  The call waits no longer than the 5 seconds, and the
    timeout is set before the connection is attempted. *)
Theorem test_connection_reachable self e w :
  (exists b, snd (test_connection self e w) = Return b) /\
  (snd (test_connection self e w) = Return true <->
   socket_denied e = false /\
   accepts_within e (tv_ip self) (port self) (seconds 5)) /\
  (snd (test_connection self e w) = Return true <->
   socket_denied e = false /\
   exists w1 w2,
     connect_ex {| timeout := Some 5%N |} (tv_ip self) (port self) e w1 = (w2, Return 0%Z)) /\
  (clock (fst (test_connection self e w)) <= clock w + seconds 5)%N /\
  files (fst (test_connection self e w)) = files w /\
  exists rest,
    trace (fst (test_connection self e w)) =
    (trace w ++ SocketNew ::
       (if socket_denied e then rest
        else SetTimeout 5 :: ConnectEx (tv_ip self) (port self) :: rest))%list.
Proof.
  assert (Hconn : forall w1,
    (exists w2, connect_ex {| timeout := Some 5%N |} (tv_ip self) (port self) e w1
                = (w2, Return 0%Z)) <->
    accepts_within e (tv_ip self) (port self) (seconds 5))
    by (intros w1; apply connect_ex_zero).
  assert (Hex : (exists w1 w2,
      connect_ex {| timeout := Some 5%N |} (tv_ip self) (port self) e w1 = (w2, Return 0%Z)) <->
    accepts_within e (tv_ip self) (port self) (seconds 5)).
  { split; [intros (w1 & H); by apply (Hconn w1) |].
    intros H. exists w. by apply Hconn. }
  rewrite Hex. clear Hconn Hex.
  cbv [test_connection try_except bind socket_new settimeout connect_ex
       close log emit ret accepts_within]. simpl.
  destruct (socket_denied e) eqn:Hs; simpl.
  { repeat split; eauto; try (intros [? ?]; congruence); try congruence; try lia.
    rewrite <- app_assoc. by eexists. }
  destruct (connect e (tv_ip self) (port self)) as [after errno | | |] eqn:Hc; simpl.
  - destruct (N.leb_spec after (seconds 5)) as [Hle | Hgt]; simpl.
    + destruct (Z.eqb_spec errno 0) as [-> | Hne]; simpl.
      * repeat split; eauto; try lia.
        rewrite <- !app_assoc. by eexists.
      * repeat split; eauto; try congruence; try lia;
          try (intros [_ (a & [= <- ->] & _)]; congruence).
        rewrite <- !app_assoc. by eexists.
    + repeat split; eauto; try congruence; try lia;
        try (intros [_ (a & [= <- ->] & ?)]; lia).
      rewrite <- !app_assoc. by eexists.
  - repeat split; eauto; try congruence; try lia;
      try (intros [_ (a & [=] & _)]).
    rewrite <- !app_assoc. by eexists.
  - repeat split; eauto; try congruence; try lia;
      try (intros [_ (a & [=] & _)]).
    rewrite <- !app_assoc. by eexists.
  - repeat split; eauto; try congruence; try lia;
      try (intros [_ (a & [=] & _)]).
    rewrite <- !app_assoc. by eexists.
Qed.

Lemma spawned_log t l msg : spawned (t ++ [Log l msg]) = spawned t.
Proof. rewrite spawned_app. simpl. lia. Qed.

Lemma spawned_run t argv check capture timeout :
  spawned (t ++ [Run argv check capture timeout]) = S (spawned t).
Proof. rewrite spawned_app. simpl. lia. Qed.

Ltac count_spawned := repeat first [rewrite spawned_log | rewrite spawned_run].

Ltac run_cases e w self command :=
  cbv [_execute_command try_except bind run log emit ret];
  cbn -[seconds startable ssh_cmd];
  rewrite spawned_log;
  destruct (startable (ssh_cmd self command)); cbn -[seconds startable ssh_cmd];
  [destruct (spawn e (spawned (trace w)) (ssh_cmd self command))
     as [| | | duration rc out err | duration rc]; cbn -[seconds startable ssh_cmd];
   try (destruct (seconds 30 <? duration)%N; cbn -[seconds startable ssh_cmd]);
   try (destruct (rc =? 0)%Z; cbn -[seconds startable ssh_cmd]) |].

(** What [_execute_command] returns or raises, outcome by outcome of the
    program it spawns. *)
Lemma execute_command_run self command capture e w :
  snd (_execute_command self command capture e w) =
  if negb (startable (ssh_cmd self command)) then Raise ValueError else
  match spawn e (spawned (trace w)) (ssh_cmd self command) with
  | Missing => Return None
  | BrokenPath => Raise NotADirectoryError
  | NotExecutable => Raise PermissionError
  | Exits duration rc out _ =>
      if (seconds 30 <? duration)%N then Return None
      else if (rc =? 0)%Z
           then Return (Some (if capture then universal_newlines out else "Command sent"))
           else Return None
  | Garbled duration rc =>
      if (seconds 30 <? duration)%N then Return None
      else if capture then Raise UnicodeDecodeError
      else if (rc =? 0)%Z then Return (Some "Command sent") else Return None
  end.
Proof. destruct capture; run_cases e w self command; reflexivity. Qed.



(** A failure that is caught makes [_execute_command] return [None]. *)
Lemma execute_command_failure_none self command capture e w :
  startable (ssh_cmd self command) = true ->
  caught_failure 30 capture (spawn e (spawned (trace w)) (ssh_cmd self command)) = true ->
  snd (_execute_command self command capture e w) = Return None.
Proof.
  intros Hs. rewrite execute_command_run, Hs. unfold caught_failure. cbn [negb].
  destruct (spawn e (spawned (trace w)) (ssh_cmd self command))
    as [| | | duration rc out err | duration rc]; try done.
  - destruct (seconds 30 <? duration)%N; [done |]. by destruct (rc =? 0)%Z.
  - destruct (seconds 30 <? duration)%N; [done |]. by destruct capture, (rc =? 0)%Z.
Qed.






(** In the same environment another command goes through, and the
    output comes back with its line ends translated. *)
Example other_command_succeeds :
  snd (_execute_command (init "192.168.1.20" 9922) "uptime" true
         Samples.picky Samples.fresh)
  = Return (Some (String (ascii_of_nat 10) "done")).
Proof. reflexivity. Qed.

End SSHHelperFacts.

(** ** More on staging: every way [prepare_firmware] can end *)

Module StagingFacts.
Import Py FileSystem Subprocess USBPrepper PyFacts USBPrepperFacts.

(** [os.makedirs] of a name directly under an existing entry makes the
    directory (or finds it made), or raises and changes nothing. *)
Lemma makedirs_child_cases e w p n :
  n <> EmptyString ->
  is_Some (files w !! p) ->
  ((files w !! join p n = Some Dir \/
    (files w !! join p n = None /\ files w !! p = Some Dir /\
     mkdir_denied e (join p n) = false)) /\
   makedirs (join p n) true e w = (with_files w (<[join p n := Dir]> (files w)), Return tt)) \/
  (~ (files w !! join p n = Some Dir \/
      (files w !! join p n = None /\ files w !! p = Some Dir /\
       mkdir_denied e (join p n) = false)) /\
   exists x, makedirs (join p n) true e w = (w, Raise x)).
Proof.
  intros Hn [pn Hp]. unfold makedirs.
  assert (Hrev : rev (join p n) = n :: rev p).
  { unfold join. destruct (String.eqb_spec n EmptyString); [done |]. apply rev_unit. }
  rewrite Hrev. cbn [makedirs_rev]. rewrite <- Hrev, !rev_involutive.
  erewrite bind_return; cycle 1.
  { erewrite bind_return; [| unfold exists_; by rewrite Hp]. reflexivity. }
  destruct (files w !! join p n) as [[| c] |] eqn:Hc.
  - left. split; [by left |].
    erewrite try_raise; [| unfold mkdir; by rewrite Hc].
    simpl. erewrite bind_return; [| unfold isdir; by rewrite Hc].
    simpl. unfold ret, with_files. rewrite insert_id by done. by destruct w.
  - right. split; [intros [? | [? _]]; congruence |]. exists FileExistsError.
    erewrite try_raise; [| unfold mkdir; by rewrite Hc].
    simpl. erewrite bind_return; [| unfold isdir; by rewrite Hc]. done.
  - unfold try_except, mkdir. rewrite Hc, parent_join, Hp by done.
    destruct pn as [| pc].
    + destruct (mkdir_denied e (join p n)) eqn:Hd.
      * right. split; [intros [? | (_ & _ & ?)]; congruence |]. exists PermissionError.
        simpl. unfold bind, isdir. by rewrite Hc.
      * left. split; [right |]; done.
    + right. split; [intros [? | (_ & ? & _)]; congruence |]. exists NotADirectoryError.
      simpl. unfold bind, isdir. by rewrite Hc.
Qed.

Lemma copyfile_unfold src to e w :
  copyfile src to e w =
  match files w !! src with
  | None => (w, Raise FileNotFoundError)
  | Some sn =>
      if match files w !! to with Some _ => bool_decide (src = to) | None => false end
      then (w, Raise SameFileError)
      else match sn with
           | Dir => (w, Raise IsADirectoryError)
           | File c => write_file to c e w
           end
  end.
Proof.
  cbv [copyfile bind raise ret].
  destruct (files w !! src) as [[| c] |], (files w !! to) as [tn |];
    try destruct (bool_decide (src = to)); reflexivity.
Qed.

(** What [shutil.copy2] can do: write the whole file where it lands,
    write a part of it and raise, or raise without writing. *)
Lemma copy2_cases e w src dst :
  (exists c,
     files w !! src = Some (File c) /\
     write_ok e (files w) src (landing w src dst) /\
     write_fails e (landing w src dst) = None /\
     copy2 src dst e w =
       (with_files w (<[landing w src dst := File c]> (files w)), Return (landing w src dst))) \/
  (exists c n,
     files w !! src = Some (File c) /\
     write_ok e (files w) src (landing w src dst) /\
     write_fails e (landing w src dst) = Some (ShortWrite n) /\
     copy2 src dst e w =
       (with_files w (<[landing w src dst := File (String.substring 0 n c)]> (files w)),
        Raise OSError)) \/
  (~ ((exists c, files w !! src = Some (File c)) /\
      write_ok e (files w) src (landing w src dst)) /\
   exists x, copy2 src dst e w = (w, Raise x)).
Proof.
  assert (Hc : copy2 src dst e w =
    match copyfile src (landing w src dst) e w with
    | (w', Return _) => (w', Return (landing w src dst))
    | (w', Raise x) => (w', Raise x)
    end).
  { cbv [copy2 bind isdir ret landing]. by destruct (files w !! dst) as [[| c] |]. }
  rewrite Hc, copyfile_unfold. clear Hc. unfold write_ok.
  set (to := landing w src dst).
  destruct (files w !! src) as [[| c] |] eqn:Hs.
  - right. right. split; [intros [[c [=]] _] |].
    destruct (files w !! to) as [tn |]; [destruct (bool_decide (src = to)) |]; by eexists.
  - destruct (decide (to = src)) as [Heq | Hne].
    { right. right. split; [tauto |]. rewrite Heq, Hs.
      rewrite bool_decide_eq_true_2 by done. by eexists. }
    assert (Hb : match files w !! to with Some _ => bool_decide (src = to) | None => false end
                 = false).
    { destruct (files w !! to); [| done]. apply bool_decide_eq_false_2. congruence. }
    rewrite Hb. unfold write_file.
    destruct (files w !! to) as [[| tc] |] eqn:Ht.
    + right. right. split; [tauto | by eexists].
    + destruct (files w !! parent to) as [[| pc] |] eqn:Hp.
      * destruct (write_fails e to) as [[| n] |] eqn:Hf.
        -- right. right. split; [tauto | by eexists].
        -- right. left. exists c, n. by auto 10.
        -- left. exists c. by auto 10.
      * right. right. split; [intros (_ & _ & _ & ? & _); congruence | by eexists].
      * right. right. split; [intros (_ & _ & _ & ? & _); congruence | by eexists].
    + destruct (files w !! parent to) as [[| pc] |] eqn:Hp.
      * destruct (write_fails e to) as [[| n] |] eqn:Hf.
        -- right. right. split; [tauto | by eexists].
        -- right. left. exists c, n. by auto 10.
        -- left. exists c. by auto 10.
      * right. right. split; [intros (_ & _ & _ & ? & _); congruence | by eexists].
      * right. right. split; [intros (_ & _ & _ & ? & _); congruence | by eexists].
  - right. right. split; [intros [[c [=]] _] | by eexists].
Qed.


(** Making the folder leaves an existing firmware path as it is. *)
Lemma with_folder_source self fw e w :
  is_Some (files w !! fw) -> folder_ok self e w ->
  with_folder self w !! fw = files w !! fw.
Proof.
  intros [fn Hfw] Hok. unfold with_folder.
  destruct (decide (join (usb_path self) "LG_DTV" = fw)) as [<- | Hne];
    [| by rewrite lookup_insert_ne].
  rewrite lookup_insert_eq. destruct Hok as [-> | [? _]]; congruence.
Qed.

(** Every run of [prepare_firmware] on existing paths ends in one of
    four ways: the folder cannot be made, the copy is refused, the copy
    is cut short, or all goes through. *)
Lemma prepare_firmware_cases self fw e w :
  is_Some (files w !! fw) ->
  is_Some (files w !! usb_path self) ->
  exists w',
    (~ folder_ok self e w /\
     prepare_firmware self fw e w = (w', Return false) /\
     files w' = files w) \/
    (folder_ok self e w /\
     ~ ((exists c, files w !! fw = Some (File c)) /\
        write_ok e (with_folder self w) fw (lands self fw w)) /\
     prepare_firmware self fw e w = (w', Return false) /\
     files w' = with_folder self w) \/
    (folder_ok self e w /\
     exists c n,
       files w !! fw = Some (File c) /\
       write_ok e (with_folder self w) fw (lands self fw w) /\
       write_fails e (lands self fw w) = Some (ShortWrite n) /\
       prepare_firmware self fw e w = (w', Return false) /\
       files w' = <[lands self fw w := File (String.substring 0 n c)]> (with_folder self w)) \/
    (folder_ok self e w /\
     exists c,
       files w !! fw = Some (File c) /\
       write_ok e (with_folder self w) fw (lands self fw w) /\
       write_fails e (lands self fw w) = None /\
       prepare_firmware self fw e w = (w', Return true) /\
       files w' = <[lands self fw w := File c]> (with_folder self w)).
Proof.
  intros Hfw Husb.
  pose proof (with_folder_source self fw e w Hfw) as Hsame.
  unfold lands, with_folder, staged, folder_ok in *.
  set (lg := join (usb_path self) "LG_DTV") in *.
  set (dest := join lg (name fw)).
  unfold prepare_firmware.
  destruct Hfw as [fn Hfw].
  erewrite bind_return; [| unfold exists_; by rewrite Hfw]. simpl.
  destruct Husb as [un Husb'].
  erewrite bind_return; [| unfold exists_; by rewrite Husb']. simpl.
  fold lg. fold dest.
  destruct (makedirs_child_cases e w (usb_path self) "LG_DTV") as [[Hl Hm] | [Hl [x Hm]]];
    [done | by eexists | |]; fold lg in Hm, Hl.
  2:{ eexists. left. split; [exact Hl | split].
      - erewrite bind_return; cycle 1.
        { erewrite try_raise; [| erewrite bind_raise by exact Hm; reflexivity].
          reflexivity. }
        reflexivity.
      - reflexivity. }
  specialize (Hsame Hl).
  erewrite bind_return; cycle 1.
  { erewrite try_return; [reflexivity |].
    erewrite bind_return by exact Hm. reflexivity. }
  simpl.
  set (w1 := {| files := <[lg := Dir]> (files w);
                trace := trace w ++ [Log INFO "Created LG_DTV folder"];
                clock := clock w |}).
  assert (Hland : landing w1 fw dest = landing (with_files w (<[lg := Dir]> (files w))) fw dest)
    by reflexivity.
  rewrite <- Hland. clear Hland.
  destruct (copy2_cases e w1 fw dest)
    as [(c & Hs & Hok & Hf & Hc) | [(c & n & Hs & Hok & Hf & Hc) | (Hno & x & Hc)]];
    simpl in *; set (to := landing w1 fw dest) in *.
  - (* the copy went through *)
    assert (Hdest : is_Some (<[to := File c]> (<[lg := Dir]> (files w)) !! dest)).
    { destruct (decide (to = dest)) as [-> | Hd]; [rewrite lookup_insert_eq; by eexists |].
      rewrite lookup_insert_ne by done.
      subst to. unfold landing in Hd. simpl in Hd.
      destruct (<[lg := Dir]> (files w) !! dest) as [[| dc] |]; by eauto. }
    destruct Hdest as [dn Hdest].
    eexists. right. right. right. split; [exact Hl |]. exists c.
    split; [congruence | split; [exact Hok | split; [exact Hf | split]]].
    + erewrite bind_return; cycle 1.
      { erewrite try_return; [reflexivity |].
        erewrite bind_return by exact Hc.
        erewrite bind_return; cycle 1.
        { unfold stat. simpl. rewrite lookup_insert_ne by apply Hok. by rewrite Hs. }
        reflexivity. }
      simpl.
      erewrite bind_return; [| unfold exists_; simpl; by rewrite Hdest]. simpl.
      erewrite bind_return by reflexivity.
      erewrite bind_return; cycle 1.
      { unfold _print_summary. erewrite bind_return;
          [| unfold stat; simpl; by rewrite Hdest].
        reflexivity. }
      reflexivity.
    + reflexivity.
  - eexists. right. right. left. split; [exact Hl |]. exists c, n.
    split; [congruence | split; [exact Hok | split; [exact Hf | split]]].
    + erewrite bind_return; cycle 1.
      { erewrite try_raise; [| erewrite bind_raise by exact Hc; reflexivity].
        reflexivity. }
      reflexivity.
    + reflexivity.
  - eexists. right. left. split; [exact Hl | split; [| split]].
    + intros [[c Hs] Hok]. apply Hno. split; [exists c; congruence | exact Hok].
    + erewrite bind_return; cycle 1.
      { erewrite try_raise; [| erewrite bind_raise by exact Hc; reflexivity].
        reflexivity. }
      reflexivity.
    + reflexivity.
Qed.

(** A run that stops at one of the two existence tests. *)
Lemma prepare_firmware_absent self fw e w :
  files w !! fw = None \/ files w !! usb_path self = None ->
  exists w', prepare_firmware self fw e w = (w', Return false) /\ files w' = files w.
Proof.
  intros H. unfold prepare_firmware.
  destruct (files w !! fw) as [nd |] eqn:Hfw.
  - destruct H as [H | H]; [done |].
    erewrite bind_return; [| unfold exists_; by rewrite Hfw]. simpl.
    erewrite bind_return; [| unfold exists_; by rewrite H]. simpl.
    by eexists.
  - erewrite bind_return; [| unfold exists_; by rewrite Hfw]. simpl.
    by eexists.
Qed.

Lemma present_or_absent self fw (w : world) :
  (is_Some (files w !! fw) /\ is_Some (files w !! usb_path self)) \/
  (files w !! fw = None \/ files w !! usb_path self = None).
Proof.
  destruct (files w !! fw), (files w !! usb_path self); eauto.
Qed.


(** [prepare_firmware] returns [True] exactly when the volume exists,
    the folder can be made, the firmware is a regular file, and the file
    it lands on can be written in full.  The last test of the method,
    which looks for the destination again, never fails. *)
Theorem prepare_firmware_true_iff self fw e w :
  snd (prepare_firmware self fw e w) = Return true <->
  is_Some (files w !! usb_path self) /\
  folder_ok self e w /\
  (exists c, files w !! fw = Some (File c)) /\
  write_ok e (with_folder self w) fw (lands self fw w) /\
  write_fails e (lands self fw w) = None.
Proof.
  destruct (present_or_absent self fw w) as [[Hfw Husb] | Habs].
  - destruct (prepare_firmware_cases self fw e w Hfw Husb)
      as (w' & [(Hno & -> & _) | [(Hok & Hno & -> & _) |
               [(Hok & c & n & Hs & Hw & Hf & -> & _) | (Hok & c & Hs & Hw & Hf & -> & _)]]]);
      simpl.
    + split; [done | tauto].
    + split; [done | tauto].
    + split; [done |]. intros (_ & _ & _ & _ & ?). congruence.
    + split; [| done]. intros _. by eauto 10.
  - destruct (prepare_firmware_absent self fw e w Habs) as (w' & -> & _). simpl.
    split; [done |]. intros (Hu & _ & [c Hc] & _).
    destruct Habs as [H | H]; [congruence |]. rewrite H in Hu. by destruct Hu.
Qed.

(** Whatever happens, [prepare_firmware] changes the file tree at no
    path other than the folder [LG_DTV], the destination and the
    source's name under the destination; and the firmware path itself is
    never changed. *)
Theorem prepare_firmware_frame self fw e w :
  (forall p,
     p <> join (usb_path self) "LG_DTV" ->
     p <> staged self fw ->
     p <> join (staged self fw) (name fw) ->
     files (fst (prepare_firmware self fw e w)) !! p = files w !! p) /\
  files (fst (prepare_firmware self fw e w)) !! fw = files w !! fw.
Proof.
  assert (Hlands : lands self fw w = staged self fw \/
                   lands self fw w = join (staged self fw) (name fw)).
  { unfold lands, landing.
    destruct (files _ !! staged self fw) as [[| c] |]; auto. }
  destruct (present_or_absent self fw w) as [[Hfw Husb] | Habs].
  - pose proof (with_folder_source self fw e w Hfw) as Hsrc.
    destruct (prepare_firmware_cases self fw e w Hfw Husb)
      as (w' & [(Hno & Hr & Hw') | [(Hok & Hno & Hr & Hw') |
               [(Hok & c & n & Hs & Hw & Hf & Hr & Hw') | (Hok & c & Hs & Hw & Hf & Hr & Hw')]]]);
      rewrite Hr; simpl; rewrite Hw'.
    + done.
    + split; [| by apply Hsrc]. intros p H1 H2 H3. unfold with_folder.
      by rewrite lookup_insert_ne.
    + split.
      * intros p H1 H2 H3. rewrite lookup_insert_ne by (destruct Hlands; congruence).
        unfold with_folder. by rewrite lookup_insert_ne.
      * rewrite lookup_insert_ne by apply Hw. by apply Hsrc.
    + split.
      * intros p H1 H2 H3. rewrite lookup_insert_ne by (destruct Hlands; congruence).
        unfold with_folder. by rewrite lookup_insert_ne.
      * rewrite lookup_insert_ne by apply Hw. by apply Hsrc.
  - destruct (prepare_firmware_absent self fw e w Habs) as (w' & Hr & Hw').
    rewrite Hr. simpl. by rewrite Hw'.
Qed.

(** When [prepare_firmware] returns [True], the file it wrote holds the
    content of the firmware, and the destination
    [<volume>/LG_DTV/<firmware-filename>] exists: it is that file, or a
    directory that was there before and now holds the file under the
    firmware's name. *)
Theorem prepare_firmware_true_staged self fw e w :
  snd (prepare_firmware self fw e w) = Return true ->
  exists c,
    files w !! fw = Some (File c) /\
    (files (fst (prepare_firmware self fw e w)) !! staged self fw = Some (File c) \/
     (files (fst (prepare_firmware self fw e w)) !! staged self fw = Some Dir /\
      files (fst (prepare_firmware self fw e w)) !! join (staged self fw) (name fw)
        = Some (File c))).
Proof.
  destruct (present_or_absent self fw w) as [[Hfw Husb] | Habs].
  - destruct (prepare_firmware_cases self fw e w Hfw Husb)
      as (w' & [(Hno & Hr & Hw') | [(Hok & Hno & Hr & Hw') |
               [(Hok & c & n & Hs & Hw & Hf & Hr & Hw') | (Hok & c & Hs & Hw & Hf & Hr & Hw')]]]);
      rewrite Hr; simpl; try done.
    intros _. exists c. split; [done |]. rewrite Hw'.
    destruct Hw as (Hne & Hnd & _). revert Hne Hnd. unfold lands, landing. simpl.
    destruct (with_folder self w !! staged self fw) as [[| dc] |] eqn:Hd; intros Hne Hnd.
    + right. split; [| by rewrite lookup_insert_eq].
      rewrite lookup_insert_ne; [done |]. intros Heq. rewrite Heq in Hnd. congruence.
    + left. by rewrite lookup_insert_eq.
    + left. by rewrite lookup_insert_eq.
  - destruct (prepare_firmware_absent self fw e w Habs) as (w' & Hr & Hw').
    rewrite Hr. done.
Qed.

Lemma prepare_firmware_true_staged_witness :
  exists c,
    files Samples.fresh !! ["home"; "fw.epk"] = Some (File c) /\
    (files (fst (prepare_firmware Samples.stick ["home"; "fw.epk"] Samples.calm Samples.fresh))
       !! staged Samples.stick ["home"; "fw.epk"] = Some (File c) \/
     (files (fst (prepare_firmware Samples.stick ["home"; "fw.epk"] Samples.calm Samples.fresh))
        !! staged Samples.stick ["home"; "fw.epk"] = Some Dir /\
      files (fst (prepare_firmware Samples.stick ["home"; "fw.epk"] Samples.calm Samples.fresh))
        !! join (staged Samples.stick ["home"; "fw.epk"]) (name ["home"; "fw.epk"])
        = Some (File c))).
Proof. apply prepare_firmware_true_staged. reflexivity. Defined.

(** A write cut short is reported as [False] and leaves the part that
    was written at the destination. *)
Theorem prepare_firmware_short_write self fw e w c n :
  is_Some (files w !! usb_path self) ->
  folder_ok self e w ->
  files w !! fw = Some (File c) ->
  write_ok e (with_folder self w) fw (lands self fw w) ->
  write_fails e (lands self fw w) = Some (ShortWrite n) ->
  snd (prepare_firmware self fw e w) = Return false /\
  files (fst (prepare_firmware self fw e w)) !! lands self fw w
    = Some (File (String.substring 0 n c)).
Proof.
  intros Husb Hfolder Hsrc Hwok Hshort.
  destruct (prepare_firmware_cases self fw e w) as
    (w' & [(Hno & Hr & Hw') | [(Hok & Hno & Hr & Hw') |
          [(Hok & c' & n' & Hs & Hw & Hf & Hr & Hw') | (Hok & c' & Hs & Hw & Hf & Hr & Hw')]]]);
    [by eexists | done | | | |]; rewrite Hr; simpl.
  - done.
  - exfalso. apply Hno. by eauto.
  - split; [done |]. rewrite Hw', lookup_insert_eq. congruence.
  - congruence.
Qed.

Lemma prepare_firmware_short_write_witness :
  snd (prepare_firmware Samples.stick ["home"; "fw.epk"] Samples.cramped Samples.fresh)
    = Return false /\
  files (fst (prepare_firmware Samples.stick ["home"; "fw.epk"] Samples.cramped Samples.fresh))
    !! lands Samples.stick ["home"; "fw.epk"] Samples.fresh = Some (File "firm").
Proof.
  apply (prepare_firmware_short_write Samples.stick ["home"; "fw.epk"] Samples.cramped
           Samples.fresh "firmware image" 4).
  - by eexists.
  - right. repeat split; reflexivity.
  - reflexivity.
  - repeat split; try discriminate; reflexivity.
  - reflexivity.
Defined.

(** A volume path that exists but is no directory (and has no [LG_DTV]
    directory under it) passes the existence test and fails at the
    folder: [False], with the file tree unchanged. *)
Theorem prepare_firmware_volume_not_dir self fw e w c :
  is_Some (files w !! fw) ->
  files w !! usb_path self = Some (File c) ->
  files w !! join (usb_path self) "LG_DTV" <> Some Dir ->
  snd (prepare_firmware self fw e w) = Return false /\
  files (fst (prepare_firmware self fw e w)) = files w.
Proof.
  intros Hfw Husb Hlg.
  assert (Hno : ~ folder_ok self e w).
  { intros [H | (_ & H & _)]; congruence. }
  destruct (prepare_firmware_cases self fw e w) as
    (w' & [(_ & Hr & Hw') | [(Hok & _) | [(Hok & _) | (Hok & _)]]]);
    [done | by eexists | | done ..].
  rewrite Hr. done.
Qed.

Lemma prepare_firmware_volume_not_dir_witness :
  snd (prepare_firmware Samples.not_a_volume ["home"; "fw.epk"] Samples.calm Samples.fresh)
    = Return false /\
  files (fst (prepare_firmware Samples.not_a_volume ["home"; "fw.epk"]
                Samples.calm Samples.fresh)) = files Samples.fresh.
Proof.
  apply (prepare_firmware_volume_not_dir _ _ _ _ "firmware image").
  - by eexists.
  - reflexivity.
  - discriminate.
Defined.

(** A firmware path that is a directory passes the existence test; the
    folder [LG_DTV] is made, the copy fails, and the method returns
    [False] leaving the new folder behind. *)
Theorem prepare_firmware_source_dir self fw e w :
  files w !! fw = Some Dir ->
  is_Some (files w !! usb_path self) ->
  folder_ok self e w ->
  snd (prepare_firmware self fw e w) = Return false /\
  files (fst (prepare_firmware self fw e w)) = with_folder self w.
Proof.
  intros Hfw Husb Hfolder.
  destruct (prepare_firmware_cases self fw e w) as
    (w' & [(Hno & _) | [(Hok & Hno & Hr & Hw') |
          [(Hok & c' & n' & Hs & _) | (Hok & c' & Hs & _)]]]);
    [by eexists | done | done | | congruence ..].
  rewrite Hr. done.
Qed.

Lemma prepare_firmware_source_dir_witness :
  snd (prepare_firmware Samples.stick ["home"] Samples.calm Samples.fresh) = Return false /\
  files (fst (prepare_firmware Samples.stick ["home"] Samples.calm Samples.fresh))
    = with_folder Samples.stick Samples.fresh.
Proof.
  apply prepare_firmware_source_dir.
  - reflexivity.
  - by eexists.
  - right. repeat split; reflexivity.
Defined.

End StagingFacts.

(** ** More on formatting: what happens after [YES] *)

Module FormatMore.
Import PyStr Py Subprocess USBPrepper PyFacts.

(** [rstrip] removes only characters of [chars], and only at the end. *)
Lemma rstrip_split chars s :
  exists t, s = rstrip chars s +:+ t /\ forall c, has_char c t -> mem_char c chars = true.
Proof.
  induction s as [| a s (t & Hs & Ht)]; simpl.
  - exists EmptyString. split; [done | intros c []].
  - destruct (rstrip chars s) as [| b kept] eqn:Hk.
    + destruct (mem_char a chars) eqn:Ha.
      * exists (String a t). simpl in *. split; [by rewrite Hs at 1 |].
        intros c [-> | Hc]; auto.
      * exists t. simpl in *. split; [by rewrite Hs at 1 | done].
    + exists t. simpl in *. split; [by rewrite Hs at 1 | done].
Qed.

(** What [rstrip] returns does not end with a character of [chars]. *)
Lemma rstrip_last chars s c p :
  rstrip chars s = p +:+ String c EmptyString -> mem_char c chars = false.
Proof.
  revert p. induction s as [| a s IH]; intros p; simpl.
  - destruct p; discriminate.
  - destruct (rstrip chars s) as [| b kept] eqn:Hk.
    + destruct (mem_char a chars) eqn:Ha.
      * destruct p; discriminate.
      * destruct p as [| a' [| ? ?]]; simpl; intros [=]; congruence.
    + destruct p as [| a' p]; simpl; [intros [=] |].
      intros [= -> Hp]. by apply (IH p).
Qed.

Lemma endswith_char s a :
  endswith s (String a EmptyString) = true ->
  exists p, s = p +:+ String a EmptyString.
Proof.
  induction s as [| b s IH]; [discriminate |].
  change (endswith (String b s) (String a EmptyString))
    with (if String.eqb (String b s) (String a EmptyString) then true
          else endswith s (String a EmptyString)).
  destruct (String.eqb_spec (String b s) (String a EmptyString)) as [[= -> ->] | Hne].
  - intros _. by exists EmptyString.
  - intros (p & ->)%IH. by exists (String b p).
Qed.

Lemma mem_char_app c s t :
  mem_char c (s +:+ t) = mem_char c s || mem_char c t.
Proof.
  induction s as [| a s IH]; simpl; [done |]. by destruct (Ascii.eqb c a).
Qed.

(** What [rstrip] keeps holds no character the text did not hold. *)
Lemma mem_char_rstrip c chars s :
  mem_char c s = false -> mem_char c (rstrip chars s) = false.
Proof.
  destruct (rstrip_split chars s) as (t & Hs & _). intros Hc.
  rewrite Hs, mem_char_app in Hc. by apply orb_false_iff in Hc as [? _].
Qed.

Lemma spawned_prompted w : spawned (trace (prompted w)) = spawned (trace w).
Proof. unfold prompted. simpl. rewrite spawned_app. simpl. lia. Qed.

(** After [YES] the platform's formatter runs in the world the prompt
    left. *)
Lemma format_drive_yes usb fs_type e w :
  stdin e = Some "YES" ->
  format_drive usb fs_type e w =
  (if String.eqb (Py.system e) "Windows" then _format_windows usb fs_type
   else if String.eqb (Py.system e) "Linux" then _format_linux usb fs_type
   else if String.eqb (Py.system e) "Darwin" then _format_macos usb fs_type
   else bind (log ERROR "Unsupported platform") (fun _ => ret false)) e (prompted w).
Proof.
  intros Hin. cbv [format_drive bind log input emit ret platform_system prompted].
  simpl. rewrite Hin. simpl. rewrite <- !app_assoc. simpl.
  destruct (String.eqb (Py.system e) "Windows"); [done |].
  destruct (String.eqb (Py.system e) "Linux"); [done |].
  destruct (String.eqb (Py.system e) "Darwin"); done.
Qed.

(** On Linux, after [YES], the drive is unmounted and formatted; the
    outcome of [umount] is ignored, the result is [True] exactly when
    [mkfs] returns 0, and every file system type other than the exact
    text [FAT32] is formatted as NTFS. *)
Theorem format_drive_linux dev fs_type e w d1 rc1 o1 e1 d2 rc2 o2 e2 :
  stdin e = Some "YES" ->
  Py.system e = "Linux" ->
  mem_char (ascii_of_nat 0) dev = false ->
  spawn e (spawned (trace w)) ["umount"; dev] = Exits d1 rc1 o1 e1 ->
  spawn e (S (spawned (trace w)))
    ["mkfs." +:+ (if String.eqb fs_type "FAT32" then "vfat" else "ntfs"); dev]
    = Exits d2 rc2 o2 e2 ->
  snd (format_drive dev fs_type e w) = Return (rc2 =? 0)%Z /\
  trace (fst (format_drive dev fs_type e w)) =
    (trace (prompted w) ++
     [Run ["umount"; dev] false false None;
      Run ["mkfs." +:+ (if String.eqb fs_type "FAT32" then "vfat" else "ntfs"); dev]
        true false None] ++
     (if (rc2 =? 0)%Z then [] else [Log ERROR "Format failed"]))%list.
Proof.
  intros Hin Hsys Hnul Hu Hm.
  assert (Hs1 : startable ["umount"; dev] = true)
    by (unfold startable; cbn; by rewrite Hnul).
  assert (Hs2 : startable ["mkfs." +:+ (if String.eqb fs_type "FAT32" then "vfat" else "ntfs");
                           dev] = true)
    by (unfold startable; destruct (String.eqb fs_type "FAT32"); cbn; by rewrite Hnul).
  rewrite (format_drive_yes _ _ _ _ Hin), Hsys.
  change (String.eqb "Linux" "Windows") with false.
  change (String.eqb "Linux" "Linux") with true. cbv iota.
  rewrite <- (spawned_prompted w) in Hu, Hm.
  generalize dependent (prompted w). intros w0 Hu Hm.
  cbv [_format_linux try_except bind run log emit ret].
  rewrite Hs1, Hu. cbn [fst snd trace files clock andb negb].
  rewrite spawned_app. cbn [spawned]. rewrite Nat.add_1_r, Hs2, Hm.
  cbn [fst snd trace files clock andb negb].
  destruct (rc2 =? 0)%Z; cbn [fst snd trace files clock andb negb];
    rewrite <- ?app_assoc; split; reflexivity.
Qed.


Lemma format_drive_linux_witness :
  snd (format_drive "/dev/sdb1" "exFAT"
         (Samples.setting "Linux" (Some "YES")
            (fun n _ => match n with
                        | 0 => Exits 5 32 EmptyString "not mounted"
                        | _ => Exits 900 0 EmptyString EmptyString
                        end))
         Samples.fresh) = Return true /\
  trace (fst (format_drive "/dev/sdb1" "exFAT"
         (Samples.setting "Linux" (Some "YES")
            (fun n _ => match n with
                        | 0 => Exits 5 32 EmptyString "not mounted"
                        | _ => Exits 900 0 EmptyString EmptyString
                        end))
         Samples.fresh)) =
    (trace (prompted Samples.fresh) ++
     [Run ["umount"; "/dev/sdb1"] false false None;
      Run ["mkfs.ntfs"; "/dev/sdb1"] true false None])%list.
Proof.
  apply (format_drive_linux "/dev/sdb1" "exFAT" _ Samples.fresh
           5 32 EmptyString "not mounted" 900 0 EmptyString EmptyString);
    reflexivity.
Defined.

(** A formatting tool that is not installed is not reported as [False]:
    on each of the three platforms the [FileNotFoundError] of the first
    program leaves [format_drive] as an exception. *)
Theorem format_drive_tool_missing usb fs_type e w :
  stdin e = Some "YES" ->
  In (Py.system e) ["Windows"; "Linux"; "Darwin"] ->
  mem_char (ascii_of_nat 0) usb = false ->
  mem_char (ascii_of_nat 0) fs_type = false ->
  (forall argv, spawn e (spawned (trace w)) argv = Missing) ->
  snd (format_drive usb fs_type e w) = Raise FileNotFoundError /\
  spawned (trace (fst (format_drive usb fs_type e w))) = S (spawned (trace w)).
Proof.
  intros Hin Hsys Hnul Hnul' Hmiss.
  assert (Hw : startable ["format"; rstrip "\" usb; "/FS:" +:+ fs_type; "/Q"; "/Y"] = true)
    by (unfold startable; cbn; by rewrite (mem_char_rstrip _ _ _ Hnul), Hnul').
  assert (Hl : startable ["umount"; usb] = true)
    by (unfold startable; cbn; by rewrite Hnul).
  assert (Hd : startable ["diskutil"; "eraseDisk"; fs_type; "LGTVDOWN"; usb] = true)
    by (unfold startable; cbn; by rewrite Hnul, Hnul').
  rewrite (format_drive_yes _ _ _ _ Hin).
  assert (Hm : forall argv, spawn e (spawned (trace (prompted w))) argv = Missing)
    by (intros argv; rewrite spawned_prompted; apply Hmiss).
  assert (Hs := spawned_prompted w).
  generalize dependent (prompted w). intros w0 Hm Hs.
  simpl in Hsys. destruct Hsys as [<- | [<- | [<- | []]]].
  - change (String.eqb "Windows" "Windows") with true. cbv iota.
    cbv [_format_windows try_except bind run log emit ret].
    rewrite Hw, Hm. cbn [fst snd trace negb]. rewrite spawned_app, Hs. simpl.
    split; [done | lia].
  - change (String.eqb "Linux" "Windows") with false.
    change (String.eqb "Linux" "Linux") with true. cbv iota.
    cbv [_format_linux try_except bind run log emit ret].
    rewrite Hl, Hm. cbn [fst snd trace negb]. rewrite spawned_app, Hs. simpl.
    split; [done | lia].
  - change (String.eqb "Darwin" "Windows") with false.
    change (String.eqb "Darwin" "Linux") with false.
    change (String.eqb "Darwin" "Darwin") with true. cbv iota.
    cbv [_format_macos try_except bind run log emit ret].
    rewrite Hd, Hm. cbn [fst snd trace negb]. rewrite spawned_app, Hs. simpl.
    split; [done | lia].
Qed.

Lemma format_drive_tool_missing_witness :
  snd (format_drive "/dev/disk2" "FAT32"
         (Samples.setting "Darwin" (Some "YES") (fun _ _ => Missing)) Samples.fresh)
    = Raise FileNotFoundError /\
  spawned (trace (fst (format_drive "/dev/disk2" "FAT32"
         (Samples.setting "Darwin" (Some "YES") (fun _ _ => Missing)) Samples.fresh))) = 1.
Proof.
  apply (format_drive_tool_missing "/dev/disk2" "FAT32"
           (Samples.setting "Darwin" (Some "YES") (fun _ _ => Missing)) Samples.fresh).
  - reflexivity.
  - simpl. tauto.
  - reflexivity.
  - reflexivity.
  - reflexivity.
Defined.

(** On a platform other than Windows, Linux and Darwin, [YES] leads to
    an error in the log and [False]; nothing is spawned. *)
Theorem format_drive_unsupported usb fs_type e w :
  stdin e = Some "YES" ->
  ~ In (Py.system e) ["Windows"; "Linux"; "Darwin"] ->
  snd (format_drive usb fs_type e w) = Return false /\
  trace (fst (format_drive usb fs_type e w)) =
    (trace (prompted w) ++ [Log ERROR "Unsupported platform"])%list /\
  spawned (trace (fst (format_drive usb fs_type e w))) = spawned (trace w).
Proof.
  intros Hin Hsys. rewrite (format_drive_yes _ _ _ _ Hin).
  destruct (String.eqb_spec (Py.system e) "Windows") as [Heq | _];
    [exfalso; apply Hsys; rewrite Heq; simpl; tauto |].
  destruct (String.eqb_spec (Py.system e) "Linux") as [Heq | _];
    [exfalso; apply Hsys; rewrite Heq; simpl; tauto |].
  destruct (String.eqb_spec (Py.system e) "Darwin") as [Heq | _];
    [exfalso; apply Hsys; rewrite Heq; simpl; tauto |].
  cbv [bind log emit ret]. cbn [fst snd trace].
  rewrite spawned_app, spawned_prompted. simpl. repeat split; lia.
Qed.

Lemma format_drive_unsupported_witness :
  snd (format_drive "/dev/da0" "FAT32"
         (Samples.setting "FreeBSD" (Some "YES") (fun _ _ => Missing)) Samples.fresh)
    = Return false.
Proof.
  apply (format_drive_unsupported "/dev/da0" "FAT32"
           (Samples.setting "FreeBSD" (Some "YES") (fun _ _ => Missing)) Samples.fresh).
  - reflexivity.
  - simpl. intros [H | [H | [H | []]]]; discriminate.
Defined.

(** On Windows, after [YES], the drive handed to [format] is the given
    one without its trailing backslashes, however many there are: what
    was cut off is backslashes only and what is left does not end with
    one.  The result is [True] exactly when [format] returns 0. *)
Theorem format_drive_windows drive fs_type e w d rc out err :
  stdin e = Some "YES" ->
  Py.system e = "Windows" ->
  startable ["format"; rstrip "\" drive; "/FS:" +:+ fs_type; "/Q"; "/Y"] = true ->
  spawn e (spawned (trace w)) ["format"; rstrip "\" drive; "/FS:" +:+ fs_type; "/Q"; "/Y"]
    = Exits d rc out err ->
  snd (format_drive drive fs_type e w) = Return (rc =? 0)%Z /\
  trace (fst (format_drive drive fs_type e w)) =
    (trace (prompted w) ++
     [Run ["format"; rstrip "\" drive; "/FS:" +:+ fs_type; "/Q"; "/Y"] true false None] ++
     (if (rc =? 0)%Z then [] else [Log ERROR "Format failed"]))%list /\
  (exists cut, drive = rstrip "\" drive +:+ cut /\
               forall c, has_char c cut -> c = "\"%char) /\
  endswith (rstrip "\" drive) "\" = false.
Proof.
  intros Hin Hsys Hs Hf. split; [| split; [| split]].
  - rewrite (format_drive_yes _ _ _ _ Hin), Hsys.
    change (String.eqb "Windows" "Windows") with true. cbv iota.
    rewrite <- (spawned_prompted w) in Hf. generalize dependent (prompted w). intros w0 Hf.
    cbv [_format_windows try_except bind run log emit ret].
    rewrite Hs, Hf. cbn [fst snd andb negb]. by destruct (rc =? 0)%Z.
  - rewrite (format_drive_yes _ _ _ _ Hin), Hsys.
    change (String.eqb "Windows" "Windows") with true. cbv iota.
    rewrite <- (spawned_prompted w) in Hf. generalize dependent (prompted w). intros w0 Hf.
    cbv [_format_windows try_except bind run log emit ret].
    rewrite Hs, Hf. cbn [fst snd andb negb]. destruct (rc =? 0)%Z; cbn [fst snd trace negb];
      rewrite <- ?app_assoc; reflexivity.
  - destruct (rstrip_split "\" drive) as (cut & Hd & Hc). exists cut. split; [done |].
    intros c Hin'. specialize (Hc c Hin'). simpl in Hc.
    destruct (Ascii.eqb_spec c "\"); [done | discriminate].
  - destruct (endswith (rstrip "\" drive) "\") eqn:He; [| done].
    apply endswith_char in He as (p & Hp).
    apply rstrip_last in Hp. discriminate.
Qed.

Lemma format_drive_windows_witness :
  snd (format_drive "E:\\" "FAT32"
         (Samples.setting "Windows" (Some "YES") (fun _ _ => Exits 40 0 EmptyString EmptyString))
         Samples.fresh) = Return true /\
  In (Run ["format"; "E:"; "/FS:FAT32"; "/Q"; "/Y"] true false None)
     (trace (fst (format_drive "E:\\" "FAT32"
         (Samples.setting "Windows" (Some "YES") (fun _ _ => Exits 40 0 EmptyString EmptyString))
         Samples.fresh))).
Proof.
  destruct (format_drive_windows "E:\\" "FAT32"
         (Samples.setting "Windows" (Some "YES") (fun _ _ => Exits 40 0 EmptyString EmptyString))
         Samples.fresh 40 0 EmptyString EmptyString) as (Hr & Ht & _);
    [reflexivity .. |].
  split; [exact Hr |]. rewrite Ht. simpl. tauto.
Defined.

End FormatMore.

(** ** More on remote commands *)

Module RemoteFacts.
Import PyStr Py Subprocess Socket SSHHelper PyFacts SSHHelperFacts.

(** [_execute_command] returns a string exactly when the command line
    can be handed to the system and [ssh] ran to its end within the 30
    seconds and returned 0: its output, decoded and with the line ends
    translated, when it is captured, the fixed text [Command sent] when
    it is not. *)
Theorem execute_command_some_iff self command capture e w s :
  snd (_execute_command self command capture e w) = Return (Some s) <->
  startable (ssh_cmd self command) = true /\
  exit_ok 30 (spawn e (spawned (trace w)) (ssh_cmd self command)) = true /\
  (if capture
   then exists out, output (spawn e (spawned (trace w)) (ssh_cmd self command)) = Some out /\
                    s = universal_newlines out
   else s = "Command sent").
Proof.
  rewrite execute_command_run.
  destruct (startable (ssh_cmd self command)); cbn [negb];
    [| split; [done | by intros [[=] _]]].
  destruct (spawn e (spawned (trace w)) (ssh_cmd self command))
    as [| | | d rc out err | d rc]; cbn [exit_ok output]; rewrite ?N.ltb_antisym.
  - split; [done | by intros (_ & [=] & _)].
  - split; [done | by intros (_ & [=] & _)].
  - split; [done | by intros (_ & [=] & _)].
  - destruct (d <=? seconds 30)%N, (rc =? 0)%Z; cbn [negb andb];
      try (split; [done | by intros (_ & [=] & _)]).
    destruct capture.
    + split.
      * intros [= <-]. repeat split; try done. by exists out.
      * intros (_ & _ & out' & [= <-] & ->). done.
    + split; [by intros [= <-] | by intros (_ & _ & ->)].
  - destruct capture, (d <=? seconds 30)%N, (rc =? 0)%Z; cbn [negb andb];
      try (split; [done | by intros (_ & [=] & _)]).
    + split; [done | by intros (_ & _ & out' & [=] & _)].
    + split; [by intros [= <-] | by intros (_ & _ & ->)].
Qed.


Lemma bind_snd {A B} (m : M A) (k : A -> M B) e w a :
  snd (m e w) = Return a -> snd (bind m k e w) = snd (k a e (fst (m e w))).
Proof. unfold bind. destruct (m e w) as [w' [a' | x]]; simpl; congruence. Qed.

Lemma bind_snd_raise {A B} (m : M A) (k : A -> M B) e w x :
  snd (m e w) = Raise x -> snd (bind m k e w) = Raise x.
Proof. unfold bind. destruct (m e w) as [w' [a' | x']]; simpl; congruence. Qed.

(** [get_firmware_info] returns a string exactly when its [ssh] command
    succeeded and printed something: an empty output comes back as
    [None], like a failure. *)
Theorem get_firmware_info_some_iff self e w s :
  snd (get_firmware_info self e w) = Return (Some s) <->
  s <> EmptyString /\
  startable (ssh_cmd self firmware_info_command) = true /\
  exit_ok 30 (spawn e (spawned (trace w)) (ssh_cmd self firmware_info_command)) = true /\
  exists out,
    output (spawn e (spawned (trace w)) (ssh_cmd self firmware_info_command)) = Some out /\
    s = universal_newlines out.
Proof.
  rewrite <- (execute_command_some_iff self firmware_info_command true e w s).
  unfold get_firmware_info. fold firmware_info_command.
  destruct (snd (_execute_command self firmware_info_command true e w))
    as [[out |] | x] eqn:Hres.
  - rewrite (bind_snd _ _ _ _ _ Hres). cbv [ret truthy]. cbn [snd].
    destruct (String.eqb_spec out EmptyString) as [-> | Hne]; cbn [negb].
    + split; [done |]. by intros [Hn [= <-]].
    + split; [by intros [= <-] | by intros [_ [= <-]]].
  - rewrite (bind_snd _ _ _ _ _ Hres). cbv [ret truthy]. cbn [snd].
    split; [done | by intros [_ [=]]].
  - rewrite (bind_snd_raise _ _ _ _ _ Hres). split; [done | by intros [_ [=]]].
Qed.

Example get_firmware_info_samples :
  snd (get_firmware_info (init "192.168.1.20" 9922)
         (Samples.setting "Linux" None (fun _ _ => Exits 800 0 "webOS 4.9" EmptyString))
         Samples.fresh) = Return (Some "webOS 4.9") /\
  snd (get_firmware_info (init "192.168.1.20" 9922)
         (Samples.setting "Linux" None (fun _ _ => Exits 800 0 EmptyString EmptyString))
         Samples.fresh) = Return None.
Proof. split; reflexivity. Qed.

(** [check_developer_mode] returns [True] exactly when its [ssh] command
    succeeded and the output holds the word [developer] in any case; a
    caught failure of the tool gives [False]. *)
Theorem check_developer_mode_true_iff self e w :
  (snd (check_developer_mode self e w) = Return true <->
   startable (ssh_cmd self list_apps_command) = true /\
   exit_ok 30 (spawn e (spawned (trace w)) (ssh_cmd self list_apps_command)) = true /\
   exists out,
     output (spawn e (spawned (trace w)) (ssh_cmd self list_apps_command)) = Some out /\
     contains_sub "developer" (lower (universal_newlines out)) = true) /\
  (startable (ssh_cmd self list_apps_command) = true ->
   caught_failure 30 true (spawn e (spawned (trace w)) (ssh_cmd self list_apps_command)) = true ->
   snd (check_developer_mode self e w) = Return false).
Proof.
  split.
  - pose proof (execute_command_some_iff self list_apps_command true e w) as Hiff.
    unfold check_developer_mode. fold list_apps_command.
    destruct (snd (_execute_command self list_apps_command true e w))
      as [[out |] | x] eqn:Hres.
    + rewrite (bind_snd _ _ _ _ _ Hres).
      destruct (Hiff out) as [Hfwd _].
      destruct (Hfwd eq_refl) as (Hs & Hok & out' & Hout & ->).
      rewrite Hs, Hok, Hout. unfold truthy.
      destruct (String.eqb_spec (universal_newlines out') EmptyString) as [Hemp | Hne];
        cbn [negb andb].
      * split; [done |]. intros (_ & _ & o & [= <-] & Hc).
        rewrite Hemp in Hc. discriminate.
      * destruct (contains_sub "developer" (lower (universal_newlines out'))) eqn:Hc.
        -- split; [| done]. intros _. repeat split. by exists out'.
        -- split; [done |]. intros (_ & _ & o & [= <-] & Hc'). congruence.
    + rewrite (bind_snd _ _ _ _ _ Hres). cbv [ret]. cbn [snd].
      split; [done |]. intros (Hs & Hok & o & Ho & _).
      destruct (Hiff (universal_newlines o)) as [_ Hbwd].
      discriminate Hbwd. repeat split; try done. by exists o.
    + rewrite (bind_snd_raise _ _ _ _ _ Hres).
      split; [done |]. intros (Hs & Hok & o & Ho & _).
      destruct (Hiff (universal_newlines o)) as [_ Hbwd].
      discriminate Hbwd. repeat split; try done. by exists o.
  - intros Hs Hf.
    pose proof (execute_command_failure_none self list_apps_command true e w Hs Hf) as Hnone.
    unfold check_developer_mode. fold list_apps_command.
    by rewrite (bind_snd _ _ _ _ _ Hnone).
Qed.

Lemma check_developer_mode_true_iff_witness :
  snd (check_developer_mode (init "192.168.1.20" 9922) Samples.bare Samples.fresh)
  = Return false.
Proof.
  apply (check_developer_mode_true_iff (init "192.168.1.20" 9922) Samples.bare Samples.fresh);
    reflexivity.
Defined.

Example check_developer_mode_found :
  snd (check_developer_mode (init "192.168.1.20" 9922)
         (Samples.setting "Linux" None
            (fun _ _ => Exits 800 0 "com.palmdts.devmode Developer Mode" EmptyString))
         Samples.fresh) = Return true.
Proof. reflexivity. Qed.




End RemoteFacts.

(** ** The network sweeps *)

Module DiscoveryFacts.
Import PyStr Py Subprocess Socket SSHHelper Discovery PyFacts.

Lemma connects_app t1 t2 : connects (t1 ++ t2) = (connects t1 ++ connects t2)%list.
Proof.
  induction t1 as [| ev t1 IH]; simpl; [done |].
  destruct ev; simpl; by rewrite IH.
Qed.

Ltac probe_done :=
  eexists; (split; [reflexivity |]); cbn [files trace clock];
  rewrite !connects_app; cbn [connects]; rewrite ?app_nil_r; unfold seconds in *;
  repeat split; lia.

(** One probe: it returns, it waits at most the 5 seconds, it attempts
    one connection unless no socket could be made. *)
Lemma test_connection_outcome self e w :
  exists w',
    test_connection self e w = (w', Return (reachable e (tv_ip self) (port self))) /\
    files w' = files w /\
    (clock w' <= clock w + seconds 5)%N /\
    connects (trace w') =
      (connects (trace w) ++
       if socket_denied e then [] else [(tv_ip self, port self)])%list.
Proof.
  cbv [test_connection try_except bind socket_new settimeout connect_ex
       close log emit ret reachable]. cbn -[seconds].
  destruct (socket_denied e); cbn -[seconds]; [probe_done |].
  destruct (connect e (tv_ip self) (port self)) as [after errno | | |]; cbn -[seconds];
    [| probe_done ..].
  destruct (N.leb_spec after (seconds 5)); cbn -[seconds]; [| probe_done].
  destruct (errno =? 0)%Z; cbn -[seconds]; probe_done.
Qed.




Lemma length_range first count : length (range first count) = count.
Proof. unfold range. by rewrite length_map, length_seq. Qed.



Lemma scan_ports_loop_run e prefix hosts : forall devices w,
  exists w',
    _scan_ports_loop prefix hosts devices e w =
      (w', Return (devices ++ List.filter (fun ip => reachable e ip 9922)
                                          (port_addresses prefix hosts))%list) /\
    files w' = files w /\
    (clock w' <= clock w + N.of_nat (length hosts) * seconds 5)%N /\
    connects (trace w') =
      (connects (trace w) ++
       if socket_denied e then []
       else map (fun ip => (ip, 9922%Z)) (port_addresses prefix hosts))%list.
Proof.
  induction hosts as [| i hosts IH]; intros devices w.
  - exists w. cbn [_scan_ports_loop port_addresses map List.filter length].
    split; [by rewrite app_nil_r |]. split; [done |]. split; [lia |].
    destruct (socket_denied e); by rewrite app_nil_r.
  - cbn [_scan_ports_loop].
    destruct (test_connection_outcome (init (prefix +:+ "." +:+ pretty i) 9922) e w)
      as (w1 & Hrun & Hf & Hc & Ht).
    rewrite Hrun. cbn [tv_ip port init] in *.
    destruct (IH (if reachable e (prefix +:+ "." +:+ pretty i) 9922
                  then (devices ++ [prefix +:+ "." +:+ pretty i])%list else devices) w1)
      as (w' & Hrun' & Hf' & Hc' & Ht').
    exists w'. split; [| split; [congruence | split]].
    + rewrite Hrun'. do 2 f_equal. cbn [port_addresses map List.filter].
      destruct (reachable e (prefix +:+ "." +:+ pretty i) 9922); [| done].
      by rewrite <- app_assoc.
    + cbn [length]. unfold seconds in *. lia.
    + rewrite Ht', Ht. destruct (socket_denied e); [by rewrite !app_nil_r |].
      by rewrite <- app_assoc.
Qed.

(** [_scan_ports] never raises.  With the local address [local_ip] it
    probes port 9922 on the 99 addresses made of the first three fields
    of [local_ip] and the numbers 1 to 99, in this order; it returns
    those that answer and waits at most 99 times 5 seconds.  Without a
    local address it returns the empty list and probes nothing. *)
Theorem scan_ports_sweep local_ip e w :
  snd (_scan_ports (Return local_ip) e w) =
    Return (List.filter (fun ip => reachable e ip 9922)
              (port_addresses (join_str "." (take 3 (split_char "." local_ip)))
                 (range 1 99))) /\
  connects (trace (fst (_scan_ports (Return local_ip) e w))) =
    (connects (trace w) ++
     if socket_denied e then []
     else map (fun ip => (ip, 9922%Z))
            (port_addresses (join_str "." (take 3 (split_char "." local_ip)))
               (range 1 99)))%list /\
  (clock (fst (_scan_ports (Return local_ip) e w)) <= clock w + 99 * seconds 5)%N /\
  files (fst (_scan_ports (Return local_ip) e w)) = files w /\
  forall x, _scan_ports (Raise x) e w = (w, Return []).
Proof.
  split; [| split; [| split; [| split; [| done]]]];
    unfold _scan_ports;
    pose proof (length_range 1 99) as Hlen;
    generalize dependent (range 1 99); intros hosts Hlen;
    destruct (scan_ports_loop_run e (join_str "." (take 3 (split_char "." local_ip)))
                hosts [] w) as (w' & Hrun & Hf & Hc & Ht);
    rewrite Hrun; cbn [fst snd app]; rewrite ?Hlen in Hc; try done.
Qed.

Lemma split_char_piece sep x rest :
  ~ has_char sep x ->
  split_char sep (x +:+ String sep rest) = x :: split_char sep rest.
Proof.
  induction x as [| c x IH]; intros Hx; simpl.
  - by rewrite Ascii.eqb_refl.
  - simpl in Hx. destruct (Ascii.eqb_spec c sep) as [-> | Hne]; [tauto |].
    rewrite IH by tauto. done.
Qed.

Lemma split_char_last sep x : ~ has_char sep x -> split_char sep x = [x].
Proof.
  induction x as [| c x IH]; intros Hx; simpl; [done |].
  simpl in Hx. destruct (Ascii.eqb_spec c sep) as [-> | Hne]; [tauto |].
  rewrite IH by tauto. done.
Qed.

Lemma pretty_N_go_digits x : forall s,
  ~ has_char "." s -> ~ has_char "." (pretty_N_go x s).
Proof.
  induction (N.lt_wf_0 x) as [x _ IH]; intros s Hs.
  destruct (decide (x = 0)%N) as [-> | Hx]; [by rewrite pretty_N_go_0 |].
  rewrite pretty_N_go_step by lia. apply IH.
  - apply N.div_lt; lia.
  - simpl. intros [Hd | Hd]; [| done].
    revert Hd. unfold pretty_N_char. by repeat case_match.
Qed.

Lemma pretty_N_digits (x : N) : ~ has_char "." (pretty x).
Proof.
  unfold pretty, pretty_N. destruct (decide (x = 0)%N).
  - simpl. intros [? | []]. discriminate.
  - apply pretty_N_go_digits. simpl. tauto.
Qed.

Lemma network_address_mask a :
  network_address a = (((a / 256) mod 16777216) * 256)%N.
Proof.
  unfold network_address.
  change 4294967040%N with (N.shiftl (N.ones 24) 8).
  assert (H : N.land a (N.shiftl (N.ones 24) 8)
              = N.shiftl (N.land (N.shiftr a 8) (N.ones 24)) 8).
  { apply N.bits_inj. intros k. rewrite N.land_spec.
    destruct (N.lt_ge_cases k 8) as [Hlt | Hge].
    - rewrite !N.shiftl_spec_low by done. apply andb_false_r.
    - rewrite !N.shiftl_spec_high' by done. rewrite N.land_spec, N.shiftr_spec'.
      do 2 f_equal. lia. }
  rewrite H, N.land_ones, N.shiftr_div_pow2, N.shiftl_mul_pow2. reflexivity.
Qed.

Lemma network_octets a i : (i < 256)%N ->
  (((network_address a + i) / 16777216) mod 256 = (a / 16777216) mod 256 /\
   ((network_address a + i) / 65536) mod 256 = (a / 65536) mod 256 /\
   ((network_address a + i) / 256) mod 256 = (a / 256) mod 256 /\
   (network_address a + i) mod 256 = i)%N.
Proof.
  intros Hi. rewrite network_address_mask.
  repeat split; zify; Z.to_euclidean_division_equations; lia.
Qed.

(** The address [_scan_ports] builds from the text of the local address
    is the one [scan_network] computes from its number. *)
Lemma port_address_agrees a i : (i < 256)%N ->
  join_str "." (take 3 (split_char "." (ip_str a))) +:+ "." +:+ pretty i
  = ip_str (network_address a + i).
Proof.
  intros Hi. destruct (network_octets a i Hi) as (H1 & H2 & H3 & H4).
  unfold ip_str at 2. rewrite H1, H2, H3, H4. unfold ip_str.
  generalize (pretty_N_digits ((a / 16777216) mod 256)%N)
             (pretty_N_digits ((a / 65536) mod 256)%N)
             (pretty_N_digits ((a / 256) mod 256)%N)
             (pretty_N_digits (a mod 256)%N).
  generalize (pretty ((a / 16777216) mod 256)%N) (pretty ((a / 65536) mod 256)%N)
             (pretty ((a / 256) mod 256)%N) (pretty (a mod 256)%N) (pretty i).
  intros p1 p2 p3 p4 pi Hp1 Hp2 Hp3 Hp4.
  assert (Hsplit : split_char "." (p1 +:+ "." +:+ p2 +:+ "." +:+ p3 +:+ "." +:+ p4)
                   = [p1; p2; p3; p4]).
  { change (split_char "." (p1 +:+ String "." (p2 +:+ String "." (p3 +:+ String "." p4)))
            = [p1; p2; p3; p4]).
    rewrite !split_char_piece by done. by rewrite split_char_last. }
  rewrite Hsplit. cbn [take join_str].
  rewrite !RegexFacts.append_assoc. done.
Qed.

Lemma range_bound first count i : In i (range first count) -> (i < N.of_nat (first + count))%N.
Proof.
  unfold range. intros (k & <- & Hk)%in_map_iff. apply in_seq in Hk. lia.
Qed.

Lemma range_app first n m : range first (n + m) = (range first n ++ range (first + n) m)%list.
Proof. unfold range. by rewrite seq_app, map_app. Qed.

Lemma port_addresses_agree a hosts :
  (forall i, In i hosts -> (i < 256)%N) ->
  port_addresses (join_str "." (take 3 (split_char "." (ip_str a)))) hosts
  = addresses (network_address a) hosts.
Proof.
  intros Hb. unfold port_addresses, addresses. apply map_ext_in.
  intros i Hin. apply port_address_agrees. by apply Hb.
Qed.

(** Given the local address as [scan_network] sees it, [_scan_ports]
    finds exactly what [scan_network] finds among the first 99 hosts of
    the /24; the hosts 100 to 254 are probed by [scan_network] only. *)
Theorem scan_ports_agrees_with_sweep a e w :
  snd (_scan_ports (Return (ip_str a)) e w) =
    Return (List.filter (fun ip => reachable e ip 9922)
              (addresses (network_address a) (range 1 99))) /\
  addresses (network_address a) (range 1 254) =
    (addresses (network_address a) (range 1 99) ++
     addresses (network_address a) (range 100 155))%list.
Proof.
  split.
  - unfold _scan_ports.
    destruct (scan_ports_loop_run e (join_str "." (take 3 (split_char "." (ip_str a))))
                (range 1 99) [] w) as (w' & -> & _).
    cbn [snd app]. rewrite port_addresses_agree; [done |].
    intros i Hi%range_bound. lia.
  - change 254%nat with (99 + 155)%nat. rewrite range_app.
    unfold addresses. by rewrite map_app.
Qed.

End DiscoveryFacts.
